(** * Log configuration of the MySQL operator: [logs_types_api.py]

    A shallow embedding of
    [mysqloperator/controller/innodbcluster/logs/logs_types_api.py]:
    the three log specifications (general, error, slow query) with their
    [parse], [validate] and [get_cm_data] methods, and the code of
    [ConfigMapMountBase] that merges a ConfigMap volume and its mount into
    the pod template of a StatefulSet.

    Python values are modelled by the type [pyval]; a call that may raise
    returns a [result]; the methods that mutate the StatefulSet return an
    [outcome], which carries the StatefulSet as the call left it. *)

From Stdlib Require Import ZArith List String Ascii Bool Lia Permutation.
From Stdlib Require Import PrimFloat DecimalString.
Import ListNotations.

Local Open Scope string_scope.
Local Open Scope list_scope.
Local Open Scope Z_scope.

(** ** Python values *)

(** The values the code meets: the scalars and containers of a YAML/JSON
    document, and the typed objects of the Kubernetes client
    ([V1StatefulSet], [V1Container], [V1Volume], ...), which are modelled by
    their class name and their attribute store.  Dictionaries keep their
    insertion order, as Python's do; their keys are strings. *)
#[warnings="-register-all"]
Inductive pyval : Type :=
| PNone
| PBool (b : bool)
| PInt (z : Z)
| PFloat (f : float)
| PStr (s : string)
| PList (l : list pyval)
| PDict (d : list (string * pyval))
| PObj (cls : string) (attrs : list (string * pyval)).

Inductive exn : Type :=
| AttributeError
| KeyError (key : string)
| TypeError
| IndexError
| ApiSpecError (msg : string)
| NotImplementedError.

Inductive result (A : Type) : Type :=
| Ok (a : A)
| Raise (e : exn).
Arguments Ok {A} a.
Arguments Raise {A} e.

Definition bind {A B : Type} (r : result A) (k : A -> result B) : result B :=
  match r with
  | Ok a => k a
  | Raise e => Raise e
  end.

Notation "'let*' x ':=' r 'in' k" := (bind r (fun x => k))
  (at level 10, x name, r at level 100, k at level 200).

Definition is_ok {A : Type} (r : result A) : bool :=
  match r with Ok _ => true | Raise _ => false end.

(** Concatenation of strings, Python's [+] and the joints of an f-string. *)
Infix "^^" := String.append (at level 60, right associativity).

(** The line feed inside the triple-quoted f-strings. *)
Definition nl : string := String (ascii_of_nat 10) EmptyString.

(** ** Association lists: dictionaries and attribute stores *)

Fixpoint assoc_get {A : Type} (k : string) (l : list (string * A)) : option A :=
  match l with
  | [] => None
  | (k', v) :: r => if String.eqb k' k then Some v else assoc_get k r
  end.

(** [d[k] = v]: the first binding of [k] is replaced where it stands, a new
    key goes to the end. *)
Fixpoint assoc_set {A : Type} (k : string) (v : A) (l : list (string * A))
  : list (string * A) :=
  match l with
  | [] => [(k, v)]
  | (k', v') :: r =>
      if String.eqb k' k then (k', v) :: r else (k', v') :: assoc_set k v r
  end.

(** ** Primitive operations of Python *)

(** [bool(v)]. *)
Definition py_truthy (v : pyval) : bool :=
  match v with
  | PNone => false
  | PBool b => b
  | PInt z => negb (z =? 0)
  | PFloat f => negb (PrimFloat.eqb f PrimFloat.zero)
  | PStr s => negb (String.eqb s "")
  | PList l => match l with [] => false | _ => true end
  | PDict d => match d with [] => false | _ => true end
  | PObj _ _ => true
  end.

(** [v == s] for a string [s]: only an equal string is equal to a string. *)
Definition py_eq_str (v : pyval) (s : string) : bool :=
  match v with
  | PStr t => String.eqb t s
  | _ => false
  end.

(** [o.a]: only the typed objects carry the attributes the code reads
    ([name], [spec], [template], [containers], [volumes],
    [volume_mounts]). *)
Definition py_getattr (o : pyval) (a : string) : result pyval :=
  match o with
  | PObj _ attrs =>
      match assoc_get a attrs with
      | Some v => Ok v
      | None => Raise AttributeError
      end
  | _ => Raise AttributeError
  end.

(** [o.a = v]. *)
Definition py_setattr (o : pyval) (a : string) (v : pyval) : result pyval :=
  match o with
  | PObj cls attrs => Ok (PObj cls (assoc_set a v attrs))
  | _ => Raise AttributeError
  end.

(** [o[k]] for a string key [k]. *)
Definition py_getitem (o : pyval) (k : string) : result pyval :=
  match o with
  | PDict d =>
      match assoc_get k d with
      | Some v => Ok v
      | None => Raise (KeyError k)
      end
  | _ => Raise TypeError
  end.

(** [o[k] = v] for a string key [k]. *)
Definition py_setitem (o : pyval) (k : string) (v : pyval) : result pyval :=
  match o with
  | PDict d => Ok (PDict (assoc_set k v d))
  | _ => Raise TypeError
  end.

(** [o[0]] on a list. *)
Definition py_first (o : pyval) : result pyval :=
  match o with
  | PList (x :: _) => Ok x
  | PList [] => Raise IndexError
  | _ => Raise TypeError
  end.

Fixpoint chars (s : string) : list pyval :=
  match s with
  | EmptyString => []
  | String c r => PStr (String c EmptyString) :: chars r
  end.

(** The items [for x in v] runs over: a list yields its entries, a dictionary
    its keys, a string its characters; nothing else here is iterable. *)
Definition py_iter (v : pyval) : result (list pyval) :=
  match v with
  | PList l => Ok l
  | PDict d => Ok (map (fun kv => PStr (fst kv)) d)
  | PStr s => Ok (chars s)
  | _ => Raise TypeError
  end.

(** [lhs += rhs] where [rhs] is a list or a dictionary, as at the three
    places the code uses it: a list is extended by the items of [rhs], and
    no other left operand accepts such a right operand. *)
Definition py_iadd (lhs rhs : pyval) : result pyval :=
  match lhs with
  | PList l => let* r := py_iter rhs in Ok (PList (l ++ r))
  | _ => Raise TypeError
  end.

(** [isinstance(v, int) or isinstance(v, float)]; [bool] is a subclass of
    [int]. *)
Definition is_int_or_float (v : pyval) : bool :=
  match v with
  | PBool _ | PInt _ | PFloat _ => true
  | _ => false
  end.

(** [v < 0] for a value that passed [is_int_or_float]. *)
Definition py_negative (v : pyval) : bool :=
  match v with
  | PInt z => z <? 0
  | PFloat f => PrimFloat.ltb f PrimFloat.zero
  | _ => false
  end.

(** [str(z)] for an integer. *)
Definition str_of_Z (z : Z) : string := NilZero.string_of_int (Z.to_int z).

(** [f"{p}"] for an [Optional[str]]. *)
Definition fmt_opt_str (p : option string) : string :=
  match p with
  | Some s => s
  | None => "None"
  end.

(** Truth value of an [Optional[bool]] and of an [Optional[str]]. *)
Definition opt_bool_truthy (b : option bool) : bool :=
  match b with Some true => true | _ => false end.

Definition opt_str_truthy (s : option string) : bool :=
  match s with Some t => negb (String.eqb t "") | None => false end.

(** ** [get_object_name] *)

Definition get_object_name (obj : pyval) : result pyval :=
  match obj with
  | PDict _ => py_getitem obj "name"
  | _ => py_getattr obj "name"
  end.

(** ** [ServerLogType] *)

Inductive ServerLogType : Type := ERROR | GENERAL | SLOW_QUERY.

Definition ServerLogType_value (t : ServerLogType) : string :=
  match t with
  | ERROR => "error"
  | GENERAL => "general"
  | SLOW_QUERY => "slowQuery"
  end.

(** ** The extractors of [api_utils] *)

(** Modelled from the spec: [api_utils.dget_bool] is imported by the module
    and not defined in it.  It is the boolean-field extractor, taking the
    document, the field name and the error-path prefix, and failing with a
    specification error that carries the prefix when the field does not hold
    a boolean. *)
Definition dget_bool (d : list (string * pyval)) (field prefix : string)
  : result bool :=
  match assoc_get field d with
  | Some (PBool b) => Ok b
  | _ => Raise (ApiSpecError (prefix ^^ "." ^^ field))
  end.

(** Modelled from the spec: [api_utils.dget_int], the integer-field
    extractor, with the same contract for integers. *)
Definition dget_int (d : list (string * pyval)) (field prefix : string)
  : result Z :=
  match assoc_get field d with
  | Some (PInt z) => Ok z
  | _ => Raise (ApiSpecError (prefix ^^ "." ^^ field))
  end.

(** [field in spec]. *)
Definition has_key (field : string) (d : list (string * pyval)) : bool :=
  match assoc_get field d with Some _ => true | None => false end.

(** [not spec] for the fragment handed to [parse]: a dictionary, or [None]
    when the document has no such fragment.  A [parse] that raises leaves
    the instance with the fields it had assigned so far; the model keeps
    the instance only of a [parse] that returns, which is what [validate]
    and [get_cm_data] are then called on. *)
Definition fragment_empty (spec : option (list (string * pyval))) : bool :=
  match spec with
  | None => true
  | Some [] => true
  | Some (_ :: _) => false
  end.

Definition fragment_dict (spec : option (list (string * pyval)))
  : list (string * pyval) :=
  match spec with Some d => d | None => [] end.

(** ** [ConfigMapMountBase]: the mount descriptor *)

Record ConfigMapMountBase : Type := {
  volume_mount_name : string;
  config_file_name : string;
  config_file_mount_path : string
}.

(** ** [GeneralLogSpec] *)

Module GeneralLogSpec.

Record t : Type := {
  base : ConfigMapMountBase;
  _enabled : option bool;
  collect : bool;
  fileName : string;
  _prefix : option string
}.

(** [__init__]. *)
Definition init : t := {|
  base := {| volume_mount_name := "general-log-config";
             config_file_name := "general-log.cnf";
             config_file_mount_path := "/etc/my.cnf.d" |};
  _enabled := None;
  collect := false;
  fileName := "general_query.log";
  _prefix := None
|}.

Definition set_prefix (p : option string) (s : t) : t :=
  {| base := base s; _enabled := _enabled s; collect := collect s;
     fileName := fileName s; _prefix := p |}.

Definition set_enabled (e : option bool) (s : t) : t :=
  {| base := base s; _enabled := e; collect := collect s;
     fileName := fileName s; _prefix := _prefix s |}.

Definition set_collect (c : bool) (s : t) : t :=
  {| base := base s; _enabled := _enabled s; collect := c;
     fileName := fileName s; _prefix := _prefix s |}.

Definition parse (self : t) (spec : option (list (string * pyval)))
    (prefix : string) : result t :=
  if fragment_empty spec then Ok self
  else
    let d := fragment_dict spec in
    let self := set_prefix (Some prefix) self in
    let* self :=
      if has_key "enabled" d
      then let* b := dget_bool d "enabled" prefix in
           Ok (set_enabled (Some b) self)
      else Ok self in
    if has_key "collect" d
    then let* b := dget_bool d "collect" prefix in
         Ok (set_collect b self)
    else Ok self.

(** The property [enabled]. *)
Definition enabled (self : t) : option bool := _enabled self.

Definition validate (self : t) : result unit :=
  if collect self && negb (opt_bool_truthy (enabled self))
  then Raise (ApiSpecError
                (fmt_opt_str (_prefix self) ^^ ".collect is enabled while "
                 ^^ fmt_opt_str (_prefix self) ^^ ".enabled is not"))
  else Ok tt.

Definition get_cm_data (self : t) : list (string * string) :=
  let mycnf :=
    "# Generated by MySQL Operator for Kubernetes" ^^ nl
    ^^ "[mysqld]" ^^ nl
    ^^ "general_log="
    ^^ (if opt_bool_truthy (enabled self) then "1" else "0") in
  let mycnf :=
    if opt_bool_truthy (enabled self)
    then mycnf ^^ nl ^^ "general_log_file=" ^^ fileName self
    else mycnf in
  [(config_file_name (base self), mycnf)].

End GeneralLogSpec.

(** ** [ErrorLogSpec] *)

Module ErrorLogSpec.

Record t : Type := {
  base : ConfigMapMountBase;
  collect : bool;
  verbosity : Z;
  error_log_name : string;
  _prefix : option string
}.

Definition init : t := {|
  base := {| volume_mount_name := "error-log-config";
             config_file_name := "error-log.cnf";
             config_file_mount_path := "/etc/my.cnf.d" |};
  collect := false;
  verbosity := 3;
  error_log_name := "error.log";
  _prefix := None
|}.

Definition set_prefix (p : option string) (s : t) : t :=
  {| base := base s; collect := collect s; verbosity := verbosity s;
     error_log_name := error_log_name s; _prefix := p |}.

Definition set_verbosity (v : Z) (s : t) : t :=
  {| base := base s; collect := collect s; verbosity := v;
     error_log_name := error_log_name s; _prefix := _prefix s |}.

Definition set_collect (c : bool) (s : t) : t :=
  {| base := base s; collect := c; verbosity := verbosity s;
     error_log_name := error_log_name s; _prefix := _prefix s |}.

Definition parse (self : t) (spec : option (list (string * pyval)))
    (prefix : string) : result t :=
  if fragment_empty spec then Ok self
  else
    let d := fragment_dict spec in
    let self := set_prefix (Some prefix) self in
    let* self :=
      if has_key "verbosity" d
      then let* v := dget_int d "verbosity" prefix in
           Ok (set_verbosity v self)
      else Ok self in
    if has_key "collect" d
    then let* b := dget_bool d "collect" prefix in
         Ok (set_collect b self)
    else Ok self.

Definition validate (self : t) : result unit :=
  if (verbosity self <? 1) || (verbosity self >? 3)
  then Raise (ApiSpecError
                (fmt_opt_str (_prefix self)
                 ^^ ".verbosity must be between 1 and 3"))
  else Ok tt.

Definition enabled (self : t) : bool := true.

Definition get_cm_data (self : t) : list (string * string) :=
  let mycnf :=
    "# Generated by MySQL Operator for Kubernetes" ^^ nl
    ^^ "[mysqld]" ^^ nl
    ^^ "log_error_verbosity=" ^^ str_of_Z (verbosity self) in
  let mycnf :=
    if collect self
    then mycnf ^^ nl ^^ "log_error='" ^^ error_log_name self ^^ "'" ^^ nl
         ^^ "log_error_services='log_sink_json'"
    else mycnf in
  [(config_file_name (base self), mycnf)].

End ErrorLogSpec.

(** ** [SlowQueryLogSpec] *)

(** [f"{v}"].  Python's text for a float, a list, a dictionary or an object
    is not modelled: it is the parameter [py_repr]. *)
Definition py_format (py_repr : pyval -> string) (v : pyval) : string :=
  match v with
  | PNone => "None"
  | PBool true => "True"
  | PBool false => "False"
  | PInt z => str_of_Z z
  | PStr s => s
  | _ => py_repr v
  end.

Module SlowQueryLogSpec.

Record t : Type := {
  base : ConfigMapMountBase;
  _enabled : option bool;
  longQueryTime : pyval;
  collect : bool;
  fileName : string;
  _prefix : option string
}.

Definition init : t := {|
  base := {| volume_mount_name := "slow-query-log-config";
             config_file_name := "slow-query-log.cnf";
             config_file_mount_path := "/etc/my.cnf.d" |};
  _enabled := None;
  longQueryTime := PNone;
  collect := false;
  fileName := "slow_query.log";
  _prefix := None
|}.

Definition set_prefix (p : option string) (s : t) : t :=
  {| base := base s; _enabled := _enabled s;
     longQueryTime := longQueryTime s; collect := collect s;
     fileName := fileName s; _prefix := p |}.

Definition set_enabled (e : option bool) (s : t) : t :=
  {| base := base s; _enabled := e;
     longQueryTime := longQueryTime s; collect := collect s;
     fileName := fileName s; _prefix := _prefix s |}.

Definition set_longQueryTime (v : pyval) (s : t) : t :=
  {| base := base s; _enabled := _enabled s;
     longQueryTime := v; collect := collect s;
     fileName := fileName s; _prefix := _prefix s |}.

Definition set_collect (c : bool) (s : t) : t :=
  {| base := base s; _enabled := _enabled s;
     longQueryTime := longQueryTime s; collect := c;
     fileName := fileName s; _prefix := _prefix s |}.

Definition parse (self : t) (spec : option (list (string * pyval)))
    (prefix : string) : result t :=
  if fragment_empty spec then Ok self
  else
    let d := fragment_dict spec in
    let self := set_prefix (Some prefix) self in
    let* self :=
      if has_key "enabled" d
      then let* b := dget_bool d "enabled" prefix in
           Ok (set_enabled (Some b) self)
      else Ok self in
    let* self :=
      if has_key "longQueryTime" d
      then let* v := py_getitem (PDict d) "longQueryTime" in
           Ok (set_longQueryTime v self)
      else Ok self in
    if has_key "collect" d
    then let* b := dget_bool d "collect" prefix in
         Ok (set_collect b self)
    else Ok self.

Definition enabled (self : t) : option bool := _enabled self.

Definition validate (self : t) : result unit :=
  if is_int_or_float (longQueryTime self) && py_negative (longQueryTime self)
  then Raise (ApiSpecError
                (fmt_opt_str (_prefix self)
                 ^^ ".longQueryTime must not be negative"))
  else if opt_str_truthy (_prefix self) && collect self
          && negb (opt_bool_truthy (enabled self))
  then Raise (ApiSpecError
                (fmt_opt_str (_prefix self) ^^ ".collect is enabled while "
                 ^^ fmt_opt_str (_prefix self) ^^ ".enabled is not"))
  else Ok tt.

Definition get_cm_data (py_repr : pyval -> string) (self : t)
  : list (string * string) :=
  let mycnf :=
    "# Generated by MySQL Operator for Kubernetes" ^^ nl
    ^^ "[mysqld]" ^^ nl
    ^^ "slow_query_log="
    ^^ (if opt_bool_truthy (enabled self) then "1" else "0") in
  let mycnf :=
    if opt_bool_truthy (enabled self)
    then
      let mycnf :=
        mycnf ^^ nl ^^ "slow_query_log_file='" ^^ fileName self ^^ "'" ^^ nl
        ^^ "log_slow_admin_statements=1" in
      if py_truthy (longQueryTime self)
      then mycnf ^^ nl ^^ "long_query_time="
           ^^ py_format py_repr (longQueryTime self)
      else mycnf
    else mycnf in
  [(config_file_name (base self), mycnf)].

End SlowQueryLogSpec.

(** ** The StatefulSet and the methods of [ConfigMapMountBase] *)

(** What a method that mutates the StatefulSet leaves behind: it returned, or
    it raised, and in both cases the caller holds the StatefulSet as the call
    left it. *)
Inductive outcome : Type :=
| Returned (sts : pyval)
| Raised (e : exn) (sts : pyval).

(** A step that either completes with the new StatefulSet or raises before
    it has assigned anything. *)
Definition all_or_nothing (sts : pyval) (r : result pyval) : outcome :=
  match r with
  | Ok sts' => Returned sts'
  | Raise e => Raised e sts
  end.

(** [isinstance(sts, dict)] and [isinstance(sts, api_client.V1StatefulSet)]. *)
Definition is_dict (sts : pyval) : bool :=
  match sts with PDict _ => true | _ => false end.

Definition is_V1StatefulSet (sts : pyval) : bool :=
  match sts with PObj cls _ => String.eqb cls "V1StatefulSet" | _ => false end.

(** [sts.spec.template.spec]. *)
Definition pod_spec (sts : pyval) : result pyval :=
  let* s := py_getattr sts "spec" in
  let* t := py_getattr s "template" in
  py_getattr t "spec".

(** The StatefulSet after the object [sts.spec.template.spec] has changed to
    [pod]: the objects on the path are shared with [sts], so the change shows
    through it. *)
Definition set_pod_spec (sts pod : pyval) : result pyval :=
  let* s := py_getattr sts "spec" in
  let* t := py_getattr s "template" in
  let* t' := py_setattr t "spec" pod in
  let* s' := py_setattr s "template" t' in
  py_setattr sts "spec" s'.

(** [sts.spec.template.spec.a = v]. *)
Definition set_pod_attr (sts : pyval) (a : string) (v : pyval) : result pyval :=
  let* pod := pod_spec sts in
  let* pod' := py_setattr pod a v in
  set_pod_spec sts pod'.

(** [sts["spec"]["template"]["spec"]] and the dictionary after the value at
    that path has changed to [pod]. *)
Definition pod_spec_dict (sts : pyval) : result pyval :=
  let* s := py_getitem sts "spec" in
  let* t := py_getitem s "template" in
  py_getitem t "spec".

Definition set_pod_spec_dict (sts pod : pyval) : result pyval :=
  let* s := py_getitem sts "spec" in
  let* t := py_getitem s "template" in
  let* t' := py_setitem t "spec" pod in
  let* s' := py_setitem s "template" t' in
  py_setitem sts "spec" s'.

(** [[x for x in l if x and get_object_name(x) != name]]: the entries are
    visited in order and the first one whose name cannot be read raises. *)
Fixpoint keep_other (name : string) (l : list pyval) : result (list pyval) :=
  match l with
  | [] => Ok []
  | x :: r =>
      if py_truthy x then
        let* n := get_object_name x in
        let* r' := keep_other name r in
        Ok (if negb (py_eq_str n name) then x :: r' else r')
      else keep_other name r
  end.

(** The [patch] dictionary of [_add_volumes_to_sts_spec]; [0o644] is 420. *)
Definition volumes_patch (self : ConfigMapMountBase) (cm_name : string)
  : pyval :=
  PDict [("volumes",
          PList [PDict [("name", PStr (volume_mount_name self));
                        ("configMap",
                         PDict [("name", PStr cm_name);
                                ("defaultMode", PInt 420);
                                ("items",
                                 PList [PDict
                                   [("key", PStr (config_file_name self));
                                    ("path", PStr (config_file_name self))]])
                               ])]])].

(** The [patch] dictionary of [_add_containers_to_sts_spec]. *)
Definition containers_patch (self : ConfigMapMountBase)
    (container_name : string) : pyval :=
  PDict [("containers",
          PList [PDict [("name", PStr container_name);
                        ("volumeMounts",
                         PList [PDict
                           [("name", PStr (volume_mount_name self));
                            ("mountPath",
                             PStr (config_file_mount_path self ^^ "/"
                                   ^^ config_file_name self));
                            ("subPath", PStr (config_file_name self))]])]])].

(** The loop over the containers of the typed form.  [Ok None] is the loop
    running to its end with [found] still false; [Ok (Some cs')] is the list
    after the first container of that name was given its new mounts and the
    loop left by [break].  The code changes the container object where it
    is; values here are not shared, so the model returns the list with the
    changed container in the place of the old one (two entries of the list
    are taken to be two objects). *)
Fixpoint patch_container (self : ConfigMapMountBase) (container_name : string)
    (patch : pyval) (cs : list pyval) : result (option (list pyval)) :=
  match cs with
  | [] => Ok None
  | container :: rest =>
      let* n := get_object_name container in
      if py_eq_str n container_name then
        let* vms := py_getattr container "volume_mounts" in
        let* l := py_iter vms in
        let* kept := keep_other (volume_mount_name self) l in
        let* container := py_setattr container "volume_mounts" (PList kept) in
        let* pc := py_getitem patch "containers" in
        let* p0 := py_first pc in
        let* pm := py_getitem p0 "volumeMounts" in
        let* cur := py_getattr container "volume_mounts" in
        let* ext := py_iadd cur pm in
        let* container := py_setattr container "volume_mounts" ext in
        Ok (Some (container :: rest))
      else
        let* r := patch_container self container_name patch rest in
        Ok (option_map (cons container) r)
  end.

Section MountMerge.

(** [utils.merge_patch_object(base, patch)] is not defined in this module:
    it is a parameter.  It changes [base] in place; the model returns
    [base] as the call leaves it and the exception, if it raised. *)
Variable merge_patch_object : pyval -> pyval -> pyval * option exn.

(** Both methods start the same way when [sts] is a dictionary. *)
Definition merge_into_dict (sts patch : pyval) : outcome :=
  match pod_spec_dict sts with
  | Raise e => Raised e sts
  | Ok pod =>
      let (pod', r) := merge_patch_object pod patch in
      match set_pod_spec_dict sts pod' with
      | Raise e => Raised e sts
      | Ok sts' =>
          match r with
          | None => Returned sts'
          | Some e => Raised e sts'
          end
      end
  end.

Definition _add_volumes_to_sts_spec (self : ConfigMapMountBase)
    (sts : pyval) (cm_name : string) : outcome :=
  let patch := volumes_patch self cm_name in
  if is_dict sts then merge_into_dict sts patch
  else if is_V1StatefulSet sts then
    all_or_nothing sts
      (let* pod := pod_spec sts in
       let* vs := py_getattr pod "volumes" in
       let* l := py_iter vs in
       let* kept := keep_other (volume_mount_name self) l in
       let* sts := set_pod_attr sts "volumes" (PList kept) in
       let* pod := pod_spec sts in
       let* cur := py_getattr pod "volumes" in
       let* pv := py_getitem patch "volumes" in
       let* ext := py_iadd cur pv in
       set_pod_attr sts "volumes" ext)
  else Returned sts.

Definition _add_containers_to_sts_spec (self : ConfigMapMountBase)
    (sts : pyval) (container_name : string) : outcome :=
  let patch := containers_patch self container_name in
  if is_dict sts then merge_into_dict sts patch
  else if is_V1StatefulSet sts then
    all_or_nothing sts
      (let* pod := pod_spec sts in
       let* cs := py_getattr pod "containers" in
       let* l := py_iter cs in
       let* r := patch_container self container_name patch l in
       match r with
       | Some l' => set_pod_attr sts "containers" (PList l')
       | None =>
           let* ext := py_iadd cs patch in
           set_pod_attr sts "containers" ext
       end)
  else Returned sts.

Definition add_to_sts_spec (self : ConfigMapMountBase) (sts : pyval)
    (container_name cm_name : string) : outcome :=
  match _add_containers_to_sts_spec self sts container_name with
  | Returned sts => _add_volumes_to_sts_spec self sts cm_name
  | Raised e sts => Raised e sts
  end.

End MountMerge.

(** A typed StatefulSet with the given containers and volumes. *)
Definition V1StatefulSet (containers volumes : pyval) : pyval :=
  PObj "V1StatefulSet"
    [("spec",
      PObj "V1StatefulSetSpec"
        [("template",
          PObj "V1PodTemplateSpec"
            [("spec",
              PObj "V1PodSpec"
                [("containers", containers); ("volumes", volumes)])])])].

Definition V1Container (name : string) (volume_mounts : pyval) : pyval :=
  PObj "V1Container"
    [("name", PStr name); ("volume_mounts", volume_mounts)].

(** A merge primitive for evaluating the typed form, which never calls it. *)
Definition merge_absent (base patch : pyval) : pyval * option exn :=
  (base, Some NotImplementedError).


(** ** Observations on a StatefulSet *)

(** The entry [x] of a list of volumes, mounts or containers is named [n]. *)
Definition named (n : string) (x : pyval) : bool :=
  match get_object_name x with
  | Ok m => py_eq_str m n
  | Raise _ => false
  end.

(** The entries the list comprehensions keep, and the entries they can
    visit without raising. *)
Definition keeps (n : string) (x : pyval) : bool :=
  py_truthy x && negb (named n x).

Definition nameable (x : pyval) : bool :=
  negb (py_truthy x) || is_ok (get_object_name x).

Definition sts_containers (sts : pyval) : result pyval :=
  let* pod := pod_spec sts in py_getattr pod "containers".

Definition sts_volumes (sts : pyval) : result pyval :=
  let* pod := pod_spec sts in py_getattr pod "volumes".

(** The typed StatefulSet lists a container named [cn]. *)
Definition has_container (cn : string) (sts : pyval) : bool :=
  match sts_containers sts with
  | Ok (PList cs) => existsb (named cn) cs
  | _ => false
  end.

(** The Volume of a mount descriptor: sourced from the ConfigMap [cm_name],
    one item whose key and path are the configuration file, mode [0o644]. *)
Definition config_volume (self : ConfigMapMountBase) (cm_name : string)
  : pyval :=
  PDict [("name", PStr (volume_mount_name self));
         ("configMap",
          PDict [("name", PStr cm_name);
                 ("defaultMode", PInt 420);
                 ("items",
                  PList [PDict [("key", PStr (config_file_name self));
                                ("path", PStr (config_file_name self))]])])].

(** The VolumeMount of a mount descriptor. *)
Definition config_mount (self : ConfigMapMountBase) : pyval :=
  PDict [("name", PStr (volume_mount_name self));
         ("mountPath",
          PStr (config_file_mount_path self ^^ "/" ^^ config_file_name self));
         ("subPath", PStr (config_file_name self))].

(** What the body of the loop does to the container it stops at: the mounts
    of another name, followed by the mount of the descriptor. *)
Definition remount (self : ConfigMapMountBase) (c : pyval) : result pyval :=
  let* vms := py_getattr c "volume_mounts" in
  let* l := py_iter vms in
  let* kept := keep_other (volume_mount_name self) l in
  py_setattr c "volume_mounts" (PList (kept ++ [config_mount self])).

(** The StatefulSet [sts] with the containers and the volumes of its pod
    template replaced. *)
Definition with_pod_lists (sts cs vs : pyval) : result pyval :=
  let* pod := pod_spec sts in
  let* pod := py_setattr pod "containers" cs in
  let* pod := py_setattr pod "volumes" vs in
  set_pod_spec sts pod.

(** Two containers that differ at most in the order of their mounts, and two
    StatefulSets that differ at most in the order of their volumes and of the
    mounts of their containers. *)
Definition same_mounts (c1 c2 : pyval) : Prop :=
  c1 = c2 \/
  exists m1 m2,
    py_getattr c1 "volume_mounts" = Ok (PList m1) /\
    py_setattr c1 "volume_mounts" (PList m2) = Ok c2 /\
    Permutation m1 m2.

Definition same_template (s1 s2 : pyval) : Prop :=
  exists cs1 cs2 vs1 vs2,
    sts_containers s1 = Ok (PList cs1) /\
    sts_volumes s1 = Ok (PList vs1) /\
    Forall2 same_mounts cs1 cs2 /\
    Permutation vs1 vs2 /\
    with_pod_lists s1 (PList cs2) (PList vs2) = Ok s2.

(** * Properties of the log specifications *)

(** ** Rendering of the general log *)

(** C5 as stated does not hold: the rendered text does not begin with the
    [[mysqld]] line, a comment line naming the operator comes first. *)
Lemma general_cm_data_is_not_bare :
  ~ (assoc_get "general-log.cnf"
       (GeneralLogSpec.get_cm_data
          (GeneralLogSpec.set_enabled (Some true) GeneralLogSpec.init))
     = Some ("[mysqld]" ^^ nl ^^ "general_log=1" ^^ nl
             ^^ "general_log_file=general_query.log")
     /\
     assoc_get "general-log.cnf"
       (GeneralLogSpec.get_cm_data
          (GeneralLogSpec.set_enabled (Some false) GeneralLogSpec.init))
     = Some ("[mysqld]" ^^ nl ^^ "general_log=0")).
Proof.
  intros [H _]. vm_compute in H. discriminate H.
Qed.

(** C5, amended: with [enabled] true and the file name [general_query.log]
    the entry of [general-log.cnf] is the comment line of the operator
    followed by [[mysqld]], [general_log=1] and
    [general_log_file=general_query.log]; with [enabled] false it is the
    comment line followed by [[mysqld]] and [general_log=0].  The entry is
    the only one of the mapping. *)
Theorem general_cm_data_bodies (c : bool) (f : string) (p : option string) :
  GeneralLogSpec.get_cm_data
    {| GeneralLogSpec.base := GeneralLogSpec.base GeneralLogSpec.init;
       GeneralLogSpec._enabled := Some true;
       GeneralLogSpec.collect := c;
       GeneralLogSpec.fileName := "general_query.log";
       GeneralLogSpec._prefix := p |}
  = [("general-log.cnf",
      "# Generated by MySQL Operator for Kubernetes" ^^ nl
      ^^ "[mysqld]" ^^ nl ^^ "general_log=1" ^^ nl
      ^^ "general_log_file=general_query.log")]
  /\
  GeneralLogSpec.get_cm_data
    {| GeneralLogSpec.base := GeneralLogSpec.base GeneralLogSpec.init;
       GeneralLogSpec._enabled := Some false;
       GeneralLogSpec.collect := c;
       GeneralLogSpec.fileName := f;
       GeneralLogSpec._prefix := p |}
  = [("general-log.cnf",
      "# Generated by MySQL Operator for Kubernetes" ^^ nl
      ^^ "[mysqld]" ^^ nl ^^ "general_log=0")].
Proof.
  split; reflexivity.
Qed.

(** ** Validation of the error log *)

(** C7: [ErrorLogSpec.validate] raises its specification error exactly when
    the stored verbosity is below 1 or above 3; so it fails for 0 and for 4
    and returns for 1, 2 and 3. *)
Theorem error_validate_range :
  (forall st,
     ErrorLogSpec.validate st =
       if (1 <=? ErrorLogSpec.verbosity st)
          && (ErrorLogSpec.verbosity st <=? 3)
       then Ok tt
       else Raise (ApiSpecError
                     (fmt_opt_str (ErrorLogSpec._prefix st)
                      ^^ ".verbosity must be between 1 and 3")))
  /\ (forall st,
        ErrorLogSpec.validate (ErrorLogSpec.set_verbosity 0 st)
        = Raise (ApiSpecError
                   (fmt_opt_str (ErrorLogSpec._prefix st)
                    ^^ ".verbosity must be between 1 and 3"))
        /\ ErrorLogSpec.validate (ErrorLogSpec.set_verbosity 4 st)
           = Raise (ApiSpecError
                      (fmt_opt_str (ErrorLogSpec._prefix st)
                       ^^ ".verbosity must be between 1 and 3")))
  /\ (forall st,
        ErrorLogSpec.validate (ErrorLogSpec.set_verbosity 1 st) = Ok tt
        /\ ErrorLogSpec.validate (ErrorLogSpec.set_verbosity 2 st) = Ok tt
        /\ ErrorLogSpec.validate (ErrorLogSpec.set_verbosity 3 st) = Ok tt).
Proof.
  split; [| split].
  - intros st. unfold ErrorLogSpec.validate.
    destruct (Z.ltb_spec (ErrorLogSpec.verbosity st) 1) as [H1 | H1];
      destruct (Z.gtb_spec (ErrorLogSpec.verbosity st) 3) as [H3 | H3];
      destruct (Z.leb_spec 1 (ErrorLogSpec.verbosity st)) as [L1 | L1];
      destruct (Z.leb_spec (ErrorLogSpec.verbosity st) 3) as [L3 | L3];
      simpl; try reflexivity; lia.
  - intros st. split; reflexivity.
  - intros st. repeat split; reflexivity.
Qed.

(** ** Parsing an absent fragment *)

(** C8: for each of the three kinds, [parse] on an absent ([None]) or empty
    fragment returns the instance as it was, and the constructor leaves
    [enabled] unset, [collect] false, the verbosity 3, [longQueryTime]
    unset, the file names at their constants and the prefix unset. *)
Theorem parse_absent_fragment (prefix : string) :
  (forall self, GeneralLogSpec.parse self None prefix = Ok self
                /\ GeneralLogSpec.parse self (Some []) prefix = Ok self)
  /\ (forall self, ErrorLogSpec.parse self None prefix = Ok self
                   /\ ErrorLogSpec.parse self (Some []) prefix = Ok self)
  /\ (forall self, SlowQueryLogSpec.parse self None prefix = Ok self
                   /\ SlowQueryLogSpec.parse self (Some []) prefix = Ok self)
  /\ (GeneralLogSpec._enabled GeneralLogSpec.init = None
      /\ GeneralLogSpec.collect GeneralLogSpec.init = false
      /\ GeneralLogSpec.fileName GeneralLogSpec.init = "general_query.log"
      /\ GeneralLogSpec._prefix GeneralLogSpec.init = None)
  /\ (ErrorLogSpec.collect ErrorLogSpec.init = false
      /\ ErrorLogSpec.verbosity ErrorLogSpec.init = 3
      /\ ErrorLogSpec.error_log_name ErrorLogSpec.init = "error.log"
      /\ ErrorLogSpec._prefix ErrorLogSpec.init = None)
  /\ (SlowQueryLogSpec._enabled SlowQueryLogSpec.init = None
      /\ SlowQueryLogSpec.longQueryTime SlowQueryLogSpec.init = PNone
      /\ SlowQueryLogSpec.collect SlowQueryLogSpec.init = false
      /\ SlowQueryLogSpec.fileName SlowQueryLogSpec.init = "slow_query.log"
      /\ SlowQueryLogSpec._prefix SlowQueryLogSpec.init = None).
Proof.
  repeat split; reflexivity.
Qed.

(** ** Validation of the slow query log *)

(** [parse] on a fragment that is not empty stores the prefix it was given. *)
Lemma slow_parse_stores_prefix self spec prefix st :
  fragment_empty spec = false ->
  SlowQueryLogSpec.parse self spec prefix = Ok st ->
  SlowQueryLogSpec._prefix st = Some prefix.
Proof.
  intros Hne. unfold SlowQueryLogSpec.parse. rewrite Hne.
  destruct (has_key "enabled" (fragment_dict spec));
    [destruct (dget_bool (fragment_dict spec) "enabled" prefix);
     [| discriminate] |];
    simpl;
    (destruct (has_key "longQueryTime" (fragment_dict spec));
     [destruct (assoc_get "longQueryTime" (fragment_dict spec));
      [| discriminate] |]);
    simpl;
    (destruct (has_key "collect" (fragment_dict spec));
     [destruct (dget_bool (fragment_dict spec) "collect" prefix);
      [| discriminate] |]);
    simpl; intros H; inversion H; reflexivity.
Qed.

(** [parse] stores the value of [longQueryTime] as the document has it. *)
Lemma slow_parse_stores_longQueryTime self d prefix st v :
  assoc_get "longQueryTime" d = Some v ->
  SlowQueryLogSpec.parse self (Some d) prefix = Ok st ->
  SlowQueryLogSpec.longQueryTime st = v.
Proof.
  intros Hv. unfold SlowQueryLogSpec.parse.
  destruct d as [| kv d']; [discriminate Hv |].
  cbn [fragment_empty fragment_dict].
  unfold has_key at 2. cbn [py_getitem]. rewrite Hv.
  destruct (has_key "enabled" (kv :: d'));
    [destruct (dget_bool (kv :: d') "enabled" prefix); [| discriminate] |];
    simpl;
    (destruct (has_key "collect" (kv :: d'));
     [destruct (dget_bool (kv :: d') "collect" prefix); [| discriminate] |]);
    simpl; intros H; inversion H; reflexivity.
Qed.

(** C6 as stated does not hold: after [parse] of a fragment with [collect]
    true and [enabled] false under the empty prefix, [validate] returns. *)
Lemma slow_validate_empty_prefix_passes :
  exists st,
    SlowQueryLogSpec.parse SlowQueryLogSpec.init
      (Some [("enabled", PBool false); ("collect", PBool true)]) "" = Ok st
    /\ SlowQueryLogSpec.collect st = true
    /\ SlowQueryLogSpec.enabled st = Some false
    /\ SlowQueryLogSpec.validate st = Ok tt.
Proof.
  eexists. repeat split.
Qed.

(** C6, amended: after [parse] of a fragment that is not empty under a
    prefix that is not the empty string, [validate] raises the specification
    error for [longQueryTime] when it is -1, raises a specification error
    when [collect] is true and [enabled] false, and returns when [collect]
    and [enabled] are true and [longQueryTime] is unset or a number that is
    not negative. *)
Theorem slow_validate_after_parse self spec prefix st :
  fragment_empty spec = false ->
  prefix <> "" ->
  SlowQueryLogSpec.parse self spec prefix = Ok st ->
  (SlowQueryLogSpec.longQueryTime st = PInt (-1) ->
   SlowQueryLogSpec.validate st
   = Raise (ApiSpecError (prefix ^^ ".longQueryTime must not be negative")))
  /\ (SlowQueryLogSpec.collect st = true ->
      SlowQueryLogSpec.enabled st = Some false ->
      exists msg, SlowQueryLogSpec.validate st = Raise (ApiSpecError msg))
  /\ (SlowQueryLogSpec.collect st = true ->
      SlowQueryLogSpec.enabled st = Some true ->
      SlowQueryLogSpec.longQueryTime st = PNone
      \/ (is_int_or_float (SlowQueryLogSpec.longQueryTime st) = true
          /\ py_negative (SlowQueryLogSpec.longQueryTime st) = false) ->
      SlowQueryLogSpec.validate st = Ok tt).
Proof.
  intros Hne Hp Hparse.
  pose proof (slow_parse_stores_prefix _ _ _ _ Hne Hparse) as Hpre.
  assert (Htr : opt_str_truthy (SlowQueryLogSpec._prefix st) = true).
  { rewrite Hpre. simpl. destruct (String.eqb_spec prefix ""); [contradiction | reflexivity]. }
  unfold SlowQueryLogSpec.validate. rewrite Htr, Hpre. simpl fmt_opt_str.
  repeat split.
  - intros ->. reflexivity.
  - intros -> ->. simpl.
    destruct (is_int_or_float _ && py_negative _); eexists; reflexivity.
  - intros -> -> [-> | [-> ->]]; reflexivity.
Qed.

Lemma slow_validate_after_parse_witness :
  exists st,
    SlowQueryLogSpec.parse SlowQueryLogSpec.init
      (Some [("enabled", PBool false); ("longQueryTime", PInt (-1));
             ("collect", PBool true)]) "spec.logs.slowQuery" = Ok st
    /\ SlowQueryLogSpec.validate st
       = Raise (ApiSpecError
                  ("spec.logs.slowQuery" ^^ ".longQueryTime must not be negative")).
Proof.
  eexists. split; [reflexivity |].
  refine (proj1 (slow_validate_after_parse SlowQueryLogSpec.init
          (Some [("enabled", PBool false); ("longQueryTime", PInt (-1));
                 ("collect", PBool true)]) "spec.logs.slowQuery" _ _ _ _) _);
    [reflexivity | discriminate | reflexivity | reflexivity].
Defined.



(** ** The guard of the check of [collect] against [enabled] *)

(** C10: [GeneralLogSpec.validate] raises whenever [collect] is true and
    [enabled] is not, whatever the stored prefix, set or unset.
    [SlowQueryLogSpec.validate] makes that check only when the stored prefix
    is set: with a prefix that is set it raises when [collect] is true and
    [enabled] is not, and with a prefix that is unset its outcome does not
    depend on [collect]; so the instance the constructor built returns with
    [collect] set to true, whatever [enabled] is. *)
Theorem collect_check_guards :
  (forall st : GeneralLogSpec.t,
     GeneralLogSpec.collect st = true ->
     GeneralLogSpec.enabled st <> Some true ->
     GeneralLogSpec.validate st
     = Raise (ApiSpecError
                (fmt_opt_str (GeneralLogSpec._prefix st)
                 ^^ ".collect is enabled while "
                 ^^ fmt_opt_str (GeneralLogSpec._prefix st)
                 ^^ ".enabled is not")))
  /\ (forall st : SlowQueryLogSpec.t,
        opt_str_truthy (SlowQueryLogSpec._prefix st) = true ->
        SlowQueryLogSpec.collect st = true ->
        SlowQueryLogSpec.enabled st <> Some true ->
        exists msg, SlowQueryLogSpec.validate st = Raise (ApiSpecError msg))
  /\ (forall (st : SlowQueryLogSpec.t) (c : bool),
        opt_str_truthy (SlowQueryLogSpec._prefix st) = false ->
        SlowQueryLogSpec.validate (SlowQueryLogSpec.set_collect c st)
        = SlowQueryLogSpec.validate st)
  /\ (forall e : option bool,
        SlowQueryLogSpec.validate
          (SlowQueryLogSpec.set_collect true
             (SlowQueryLogSpec.set_enabled e SlowQueryLogSpec.init))
        = Ok tt)
  /\ (forall e : option bool,
        e <> Some true ->
        GeneralLogSpec.validate
          (GeneralLogSpec.set_collect true
             (GeneralLogSpec.set_enabled e GeneralLogSpec.init))
        = Raise (ApiSpecError
                   "None.collect is enabled while None.enabled is not")).
Proof.
  split; [| split; [| split; [| split]]].
  - intros st Hc He. unfold GeneralLogSpec.validate. rewrite Hc.
    destruct (GeneralLogSpec.enabled st) as [[|] |]; try reflexivity.
    contradiction.
  - intros st Hp Hc He. unfold SlowQueryLogSpec.validate.
    rewrite Hp, Hc.
    destruct (is_int_or_float _ && py_negative _); [eexists; reflexivity |].
    destruct (SlowQueryLogSpec.enabled st) as [[|] |];
      try (eexists; reflexivity).
    contradiction.
  - intros st c Hp. unfold SlowQueryLogSpec.validate.
    cbn [SlowQueryLogSpec.set_collect SlowQueryLogSpec.longQueryTime
         SlowQueryLogSpec._prefix SlowQueryLogSpec.collect].
    rewrite Hp. reflexivity.
  - intros e. reflexivity.
  - intros [[|] |] He; try reflexivity. contradiction.
Qed.

(** * Properties of the mount merge *)

(** ** Association lists *)

Lemma assoc_get_set_same {A : Type} k (v : A) l :
  assoc_get k (assoc_set k v l) = Some v.
Proof.
  induction l as [| [k' v'] r IH]; simpl.
  - rewrite String.eqb_refl. reflexivity.
  - destruct (String.eqb k' k) eqn:E; simpl; rewrite E; auto.
Qed.

Lemma assoc_get_set_other {A : Type} k k' (v : A) l :
  k <> k' -> assoc_get k' (assoc_set k v l) = assoc_get k' l.
Proof.
  intros Hne. induction l as [| [k0 v0] r IH]; simpl.
  - destruct (String.eqb_spec k k'); [contradiction | reflexivity].
  - destruct (String.eqb_spec k0 k) as [-> | Hk]; simpl.
    + destruct (String.eqb_spec k k'); [contradiction | reflexivity].
    + rewrite IH. reflexivity.
Qed.

Lemma assoc_set_set_same {A : Type} k (v w : A) l :
  assoc_set k w (assoc_set k v l) = assoc_set k w l.
Proof.
  induction l as [| [k' v'] r IH]; simpl.
  - rewrite String.eqb_refl. reflexivity.
  - destruct (String.eqb k' k) eqn:E; simpl; rewrite E; [| rewrite IH];
      reflexivity.
Qed.

(** A binding that is already there absorbs an earlier assignment to it,
    also across an assignment to another key. *)
Lemma assoc_set_absorb {A : Type} k1 k2 (u v w x : A) l :
  k1 <> k2 ->
  assoc_get k1 l = Some x ->
  assoc_set k1 w (assoc_set k2 v (assoc_set k1 u l))
  = assoc_set k1 w (assoc_set k2 v l).
Proof.
  intros Hne. induction l as [| [k0 v0] r IH]; simpl; [discriminate |].
  destruct (String.eqb_spec k0 k1) as [-> | H1]; simpl.
  - intros _. destruct (String.eqb_spec k1 k2) as [-> | _];
      [contradiction |].
    simpl. rewrite String.eqb_refl. reflexivity.
  - intros Hx. destruct (String.eqb_spec k0 k2) as [-> | H2]; simpl.
    + destruct (String.eqb_spec k2 k1) as [E | _]; [congruence |].
      rewrite assoc_set_set_same. reflexivity.
    + destruct (String.eqb_spec k0 k1); [contradiction |].
      rewrite (IH Hx). reflexivity.
Qed.

(** ** Attributes of an object *)

Lemma getattr_inv o a v :
  py_getattr o a = Ok v ->
  exists cls attrs, o = PObj cls attrs /\ assoc_get a attrs = Some v.
Proof.
  destruct o; simpl; try discriminate.
  destruct (assoc_get a attrs) eqn:E; [| discriminate].
  intros H. injection H as <-. eauto.
Qed.

Lemma getattr_setattr_same o a v o' :
  py_setattr o a v = Ok o' -> py_getattr o' a = Ok v.
Proof.
  destruct o; simpl; try discriminate.
  intros H. injection H as <-. simpl. rewrite assoc_get_set_same.
  reflexivity.
Qed.

Lemma getattr_setattr_other o a b v o' :
  a <> b -> py_setattr o a v = Ok o' -> py_getattr o' b = py_getattr o b.
Proof.
  intros Hne. destruct o; simpl; try discriminate.
  intros H. injection H as <-. simpl.
  rewrite (assoc_get_set_other _ _ _ _ Hne). reflexivity.
Qed.

Lemma setattr_setattr_same o a v w o' :
  py_setattr o a v = Ok o' -> py_setattr o' a w = py_setattr o a w.
Proof.
  destruct o; simpl; try discriminate.
  intros H. injection H as <-. simpl. rewrite assoc_set_set_same.
  reflexivity.
Qed.

Lemma setattr_total o a v x :
  py_getattr o a = Ok x -> exists o', py_setattr o a v = Ok o'.
Proof.
  intros H. apply getattr_inv in H as (cls & attrs & -> & _).
  simpl. eauto.
Qed.

(** ** The path to the pod template *)

Lemma pod_spec_inv sts pod :
  pod_spec sts = Ok pod ->
  exists c0 a0 c1 a1 c2 a2,
    sts = PObj c0 a0
    /\ assoc_get "spec" a0 = Some (PObj c1 a1)
    /\ assoc_get "template" a1 = Some (PObj c2 a2)
    /\ assoc_get "spec" a2 = Some pod.
Proof.
  unfold pod_spec. intros H.
  destruct (py_getattr sts "spec") as [s |] eqn:Es; [| discriminate].
  simpl in H.
  destruct (py_getattr s "template") as [t |] eqn:Et; [| discriminate].
  simpl in H.
  apply getattr_inv in Es as (c0 & a0 & -> & E0).
  apply getattr_inv in Et as (c1 & a1 & -> & E1).
  apply getattr_inv in H as (c2 & a2 & -> & E2).
  exists c0, a0, c1, a1, c2, a2. auto.
Qed.

Lemma set_pod_spec_total sts pod q :
  pod_spec sts = Ok pod -> exists sts', set_pod_spec sts q = Ok sts'.
Proof.
  intros H. apply pod_spec_inv in H
    as (c0 & a0 & c1 & a1 & c2 & a2 & -> & E0 & E1 & E2).
  unfold set_pod_spec. simpl. rewrite E0. simpl. rewrite E1. simpl. eauto.
Qed.

Lemma set_pod_spec_inv sts q sts' :
  set_pod_spec sts q = Ok sts' ->
  exists c0 a0 c1 a1 c2 a2,
    sts = PObj c0 a0
    /\ assoc_get "spec" a0 = Some (PObj c1 a1)
    /\ assoc_get "template" a1 = Some (PObj c2 a2)
    /\ sts' = PObj c0 (assoc_set "spec"
                        (PObj c1 (assoc_set "template"
                                    (PObj c2 (assoc_set "spec" q a2)) a1))
                        a0).
Proof.
  unfold set_pod_spec. intros H.
  destruct (py_getattr sts "spec") as [s |] eqn:Es; [| discriminate].
  simpl in H.
  destruct (py_getattr s "template") as [t |] eqn:Et; [| discriminate].
  simpl in H.
  apply getattr_inv in Es as (c0 & a0 & -> & E0).
  apply getattr_inv in Et as (c1 & a1 & -> & E1).
  destruct t as [| | | | | | | c2 a2]; simpl in H; try discriminate.
  injection H as <-.
  exists c0, a0, c1, a1, c2, a2. auto.
Qed.

Lemma pod_spec_set_pod_spec sts q sts' :
  set_pod_spec sts q = Ok sts' -> pod_spec sts' = Ok q.
Proof.
  intros H. apply set_pod_spec_inv in H
    as (c0 & a0 & c1 & a1 & c2 & a2 & -> & E0 & E1 & ->).
  unfold pod_spec. simpl. rewrite assoc_get_set_same. simpl.
  rewrite assoc_get_set_same. simpl. rewrite assoc_get_set_same.
  reflexivity.
Qed.

Lemma set_pod_spec_twice sts q sts' q' :
  set_pod_spec sts q = Ok sts' -> set_pod_spec sts' q' = set_pod_spec sts q'.
Proof.
  intros H. apply set_pod_spec_inv in H
    as (c0 & a0 & c1 & a1 & c2 & a2 & -> & E0 & E1 & ->).
  unfold set_pod_spec. simpl. rewrite assoc_get_set_same, E0. simpl.
  rewrite assoc_get_set_same, E1. simpl.
  rewrite !assoc_set_set_same. reflexivity.
Qed.

Lemma set_pod_spec_class sts q sts' :
  set_pod_spec sts q = Ok sts' ->
  is_V1StatefulSet sts' = is_V1StatefulSet sts /\ is_dict sts' = false.
Proof.
  intros H. apply set_pod_spec_inv in H
    as (c0 & a0 & c1 & a1 & c2 & a2 & -> & E0 & E1 & ->).
  split; reflexivity.
Qed.

Lemma typed_not_dict sts : is_V1StatefulSet sts = true -> is_dict sts = false.
Proof. destruct sts; simpl; congruence. Qed.

(** ** The list comprehensions *)

Lemma keep_other_filter n l k :
  keep_other n l = Ok k ->
  forallb nameable l = true /\ k = filter (keeps n) l.
Proof.
  revert k. induction l as [| x r IH]; simpl; intros k H.
  - injection H as <-. auto.
  - unfold nameable at 1, keeps at 1, named.
    destruct (py_truthy x); simpl.
    + destruct (get_object_name x) as [m |]; [| discriminate]. simpl in H.
      destruct (keep_other n r) as [r' |]; [| discriminate]. simpl in H.
      destruct (IH _ eq_refl) as [Hn ->]. injection H as <-.
      split; [assumption |].
      destruct (py_eq_str m n); reflexivity.
    + apply IH. assumption.
Qed.

Lemma filter_keep_other n l :
  forallb nameable l = true -> keep_other n l = Ok (filter (keeps n) l).
Proof.
  induction l as [| x r IH]; simpl; [reflexivity |].
  unfold nameable at 1, keeps at 1, named.
  destruct (py_truthy x); simpl.
  - destruct (get_object_name x) as [m |]; simpl; [| discriminate].
    intros Hr. rewrite (IH Hr). simpl.
    destruct (py_eq_str m n); reflexivity.
  - exact IH.
Qed.

Lemma forallb_filter {A : Type} (p f : A -> bool) l :
  forallb p l = true -> forallb p (filter f l) = true.
Proof.
  induction l as [| x r IH]; simpl; [reflexivity |].
  intros H. apply andb_true_iff in H as [Hx Hr].
  destruct (f x); simpl; [rewrite Hx |]; auto.
Qed.

Lemma filter_comm {A : Type} (f g : A -> bool) l :
  filter f (filter g l) = filter g (filter f l).
Proof.
  induction l as [| x r IH]; simpl; [reflexivity |].
  destruct (f x) eqn:F, (g x) eqn:G; simpl; rewrite ?F, ?G, IH; reflexivity.
Qed.

Lemma filter_idem {A : Type} (f : A -> bool) l :
  filter f (filter f l) = filter f l.
Proof.
  induction l as [| x r IH]; simpl; [reflexivity |].
  destruct (f x) eqn:F; simpl; rewrite ?F, IH; reflexivity.
Qed.

(** An entry that is kept for the name [n] is not named [n]. *)
Lemma keeps_not_named n x : keeps n x = true -> named n x = false.
Proof.
  unfold keeps. intros H. apply andb_true_iff in H as [_ H].
  apply negb_true_iff in H. exact H.
Qed.

Lemma filter_named_keeps n l : filter (named n) (filter (keeps n) l) = [].
Proof.
  induction l as [| x r IH]; simpl; [reflexivity |].
  destruct (keeps n x) eqn:K; simpl; [| exact IH].
  rewrite (keeps_not_named _ _ K). exact IH.
Qed.

(** ** The volume and the mount of a descriptor *)

Lemma config_mount_facts self n :
  py_truthy (config_mount self) = true
  /\ nameable (config_mount self) = true
  /\ named n (config_mount self) = String.eqb (volume_mount_name self) n
  /\ keeps n (config_mount self) = negb (String.eqb (volume_mount_name self) n).
Proof. repeat split. Qed.

Lemma config_volume_facts self cm n :
  py_truthy (config_volume self cm) = true
  /\ nameable (config_volume self cm) = true
  /\ named n (config_volume self cm) = String.eqb (volume_mount_name self) n
  /\ keeps n (config_volume self cm)
     = negb (String.eqb (volume_mount_name self) n).
Proof. repeat split. Qed.

(** The list a comprehension kept, followed by the entry of the descriptor,
    holds that entry as its only entry of that name. *)
Lemma filter_named_appended n l x :
  named n x = true ->
  filter (named n) (filter (keeps n) l ++ [x]) = [x].
Proof.
  intros Hx. rewrite filter_app, filter_named_keeps. simpl. rewrite Hx.
  reflexivity.
Qed.

(** ** The body of the loop over the containers *)

Lemma patch_container_cons self cn c rest :
  patch_container self cn (containers_patch self cn) (c :: rest)
  = let* n := get_object_name c in
    if py_eq_str n cn
    then let* c' := remount self c in Ok (Some (c' :: rest))
    else let* r := patch_container self cn (containers_patch self cn) rest in
         Ok (option_map (cons c) r).
Proof.
  cbn [patch_container]. destruct (get_object_name c) as [n |]; simpl;
    [| reflexivity].
  destruct (py_eq_str n cn); [| reflexivity].
  unfold remount.
  destruct (py_getattr c "volume_mounts") as [vms |] eqn:Ev; simpl;
    [| reflexivity].
  destruct (py_iter vms) as [l |]; simpl; [| reflexivity].
  destruct (keep_other (volume_mount_name self) l) as [kept |]; simpl;
    [| reflexivity].
  apply getattr_inv in Ev as (cls & attrs & -> & _). simpl.
  rewrite assoc_get_set_same. simpl. rewrite assoc_set_set_same.
  reflexivity.
Qed.

Lemma remount_inv self c c' :
  remount self c = Ok c' ->
  exists cls attrs mv ml,
    c = PObj cls attrs
    /\ assoc_get "volume_mounts" attrs = Some mv
    /\ py_iter mv = Ok ml
    /\ forallb nameable ml = true
    /\ c' = PObj cls
              (assoc_set "volume_mounts"
                 (PList (filter (keeps (volume_mount_name self)) ml
                         ++ [config_mount self])) attrs).
Proof.
  unfold remount. intros H.
  destruct (py_getattr c "volume_mounts") as [mv |] eqn:Ev; [| discriminate].
  simpl in H. destruct (py_iter mv) as [ml |] eqn:Ei; [| discriminate].
  simpl in H.
  destruct (keep_other (volume_mount_name self) ml) as [kept |] eqn:Ek;
    [| discriminate].
  simpl in H. apply keep_other_filter in Ek as [Hn ->].
  apply getattr_inv in Ev as (cls & attrs & -> & Ea).
  simpl in H. injection H as <-.
  exists cls, attrs, mv, ml. auto.
Qed.

Lemma remount_intro self cls attrs mv ml :
  assoc_get "volume_mounts" attrs = Some mv ->
  py_iter mv = Ok ml ->
  forallb nameable ml = true ->
  remount self (PObj cls attrs)
  = Ok (PObj cls
          (assoc_set "volume_mounts"
             (PList (filter (keeps (volume_mount_name self)) ml
                     ++ [config_mount self])) attrs)).
Proof.
  intros Ea Ei Hn. unfold remount. simpl. rewrite Ea. simpl. rewrite Ei.
  simpl. rewrite (filter_keep_other _ _ Hn). reflexivity.
Qed.

Lemma remount_name self c c' :
  remount self c = Ok c' -> get_object_name c' = get_object_name c.
Proof.
  intros H. apply remount_inv in H
    as (cls & attrs & mv & ml & -> & _ & _ & _ & ->).
  simpl. rewrite assoc_get_set_other by discriminate. reflexivity.
Qed.

Lemma remount_named self c c' n :
  remount self c = Ok c' -> named n c' = named n c.
Proof.
  intros H. unfold named. rewrite (remount_name _ _ _ H). reflexivity.
Qed.

(** The mounts of the container the loop stopped at. *)
Lemma remount_mounts self c c' :
  remount self c = Ok c' ->
  exists ms,
    py_getattr c' "volume_mounts" = Ok (PList ms)
    /\ filter (named (volume_mount_name self)) ms = [config_mount self].
Proof.
  intros H. apply remount_inv in H
    as (cls & attrs & mv & ml & -> & _ & _ & _ & ->).
  eexists. split.
  - simpl. rewrite assoc_get_set_same. reflexivity.
  - apply filter_named_appended. simpl. apply String.eqb_refl.
Qed.

Lemma forallb_app_single {A : Type} (p : A -> bool) l x :
  forallb p l = true -> p x = true -> forallb p (l ++ [x]) = true.
Proof.
  intros Hl Hx. rewrite forallb_app, Hl. simpl. rewrite Hx. reflexivity.
Qed.

Lemma remount_idem self c c' :
  remount self c = Ok c' -> remount self c' = Ok c'.
Proof.
  intros H. apply remount_inv in H
    as (cls & attrs & mv & ml & -> & Ea & Ei & Hn & ->).
  erewrite remount_intro;
    [| apply assoc_get_set_same | reflexivity
     | apply forallb_app_single;
       [apply forallb_filter; exact Hn | reflexivity]].
  rewrite assoc_set_set_same, filter_app, filter_idem.
  cbn [filter].
  rewrite (proj2 (proj2 (proj2 (config_mount_facts self _)))).
  rewrite String.eqb_refl. simpl negb. cbv iota. rewrite app_nil_r.
  reflexivity.
Qed.

Lemma remount_commute a b c ca cb :
  volume_mount_name a <> volume_mount_name b ->
  remount a c = Ok ca ->
  remount b c = Ok cb ->
  exists cab cba,
    remount b ca = Ok cab /\ remount a cb = Ok cba /\ same_mounts cab cba.
Proof.
  intros Hne Ha Hb.
  apply remount_inv in Ha as (cls & attrs & mv & ml & -> & Ea & Ei & Hn & ->).
  apply remount_inv in Hb
    as (cls' & attrs' & mv' & ml' & Heq & Ea' & Ei' & _ & ->).
  injection Heq as <- <-. rewrite Ea in Ea'. injection Ea' as <-.
  rewrite Ei in Ei'. injection Ei' as <-.
  eexists. eexists. split; [| split].
  - eapply remount_intro;
      [apply assoc_get_set_same | reflexivity
      | apply forallb_app_single;
        [apply forallb_filter; exact Hn | reflexivity]].
  - eapply remount_intro;
      [apply assoc_get_set_same | reflexivity
      | apply forallb_app_single;
        [apply forallb_filter; exact Hn | reflexivity]].
  - right. eexists. eexists. split; [| split].
    + simpl. rewrite assoc_get_set_same. reflexivity.
    + simpl. rewrite !assoc_set_set_same. reflexivity.
    + rewrite !filter_app. cbn [filter].
      rewrite !(proj2 (proj2 (proj2 (config_mount_facts _ _)))).
      destruct (String.eqb_spec (volume_mount_name a) (volume_mount_name b))
        as [E | _]; [contradiction |].
      destruct (String.eqb_spec (volume_mount_name b) (volume_mount_name a))
        as [E | _]; [symmetry in E; contradiction |].
      simpl. rewrite (filter_comm (keeps (volume_mount_name b))).
      rewrite <- !app_assoc. apply Permutation_app_head. simpl.
      apply perm_swap.
Qed.

(** ** The loop over the containers *)

Lemma same_mounts_refl l : Forall2 same_mounts l l.
Proof.
  induction l; constructor; [left; reflexivity | assumption].
Qed.

(** The loop finds a container exactly when the list holds one of that
    name. *)
Lemma patch_container_found self cn cs r :
  patch_container self cn (containers_patch self cn) cs = Ok r ->
  existsb (named cn) cs = match r with Some _ => true | None => false end.
Proof.
  revert r. induction cs as [| c rest IH]; intros r H.
  - simpl in H. injection H as <-. reflexivity.
  - rewrite patch_container_cons in H. simpl. unfold named at 1.
    destruct (get_object_name c) as [n |]; [| discriminate]. simpl in H.
    destruct (py_eq_str n cn).
    + destruct (remount self c); [| discriminate]. simpl in H.
      injection H as <-. reflexivity.
    + destruct (patch_container self cn (containers_patch self cn) rest)
        as [r' |]; [| discriminate].
      simpl in H. injection H as <-. rewrite (IH _ eq_refl).
      destruct r'; reflexivity.
Qed.

(** The names of the containers are those of before. *)
Lemma patch_container_names self cn cs cs' n :
  patch_container self cn (containers_patch self cn) cs = Ok (Some cs') ->
  existsb (named n) cs' = existsb (named n) cs.
Proof.
  revert cs'. induction cs as [| c rest IH]; intros cs' H.
  - discriminate H.
  - rewrite patch_container_cons in H.
    destruct (get_object_name c) as [m |]; [| discriminate]. simpl in H.
    destruct (py_eq_str m cn).
    + destruct (remount self c) as [c' |] eqn:Er; [| discriminate].
      simpl in H. injection H as <-. simpl.
      rewrite (remount_named _ _ _ n Er). reflexivity.
    + destruct (patch_container self cn (containers_patch self cn) rest)
        as [[r' |] |]; try discriminate.
      simpl in H. injection H as <-. simpl. rewrite (IH _ eq_refl).
      reflexivity.
Qed.

(** After the loop the first container of that name holds the mount of the
    descriptor as its only mount of that name. *)
Lemma patch_container_post self cn cs cs' :
  patch_container self cn (containers_patch self cn) cs = Ok (Some cs') ->
  exists c ms,
    find (named cn) cs' = Some c
    /\ py_getattr c "volume_mounts" = Ok (PList ms)
    /\ filter (named (volume_mount_name self)) ms = [config_mount self].
Proof.
  revert cs'. induction cs as [| c rest IH]; intros cs' H.
  - discriminate H.
  - rewrite patch_container_cons in H.
    destruct (get_object_name c) as [m |] eqn:En; [| discriminate].
    simpl in H. destruct (py_eq_str m cn) eqn:Em.
    + destruct (remount self c) as [c' |] eqn:Er; [| discriminate].
      simpl in H. injection H as <-.
      destruct (remount_mounts _ _ _ Er) as (ms & Hg & Hf).
      exists c', ms. split; [| split; assumption].
      simpl. rewrite (remount_named _ _ _ cn Er). unfold named.
      rewrite En, Em. reflexivity.
    + destruct (patch_container self cn (containers_patch self cn) rest)
        as [[r' |] |]; try discriminate.
      simpl in H. injection H as <-.
      destruct (IH _ eq_refl) as (c0 & ms & Hfind & Hg & Hf).
      exists c0, ms. split; [| split; assumption].
      simpl. unfold named at 1. rewrite En, Em. exact Hfind.
Qed.

Lemma patch_container_idem self cn cs cs' :
  patch_container self cn (containers_patch self cn) cs = Ok (Some cs') ->
  patch_container self cn (containers_patch self cn) cs' = Ok (Some cs').
Proof.
  revert cs'. induction cs as [| c rest IH]; intros cs' H.
  - discriminate H.
  - rewrite patch_container_cons in H.
    destruct (get_object_name c) as [m |] eqn:En; [| discriminate].
    simpl in H. destruct (py_eq_str m cn) eqn:Em.
    + destruct (remount self c) as [c' |] eqn:Er; [| discriminate].
      simpl in H. injection H as <-.
      rewrite patch_container_cons, (remount_name _ _ _ Er), En. simpl.
      rewrite Em, (remount_idem _ _ _ Er). reflexivity.
    + destruct (patch_container self cn (containers_patch self cn) rest)
        as [[r' |] |]; try discriminate.
      simpl in H. injection H as <-.
      rewrite patch_container_cons, En. simpl. rewrite Em.
      rewrite (IH _ eq_refl). reflexivity.
Qed.

Lemma patch_container_commute a b cna cnb cs csa csb :
  volume_mount_name a <> volume_mount_name b ->
  patch_container a cna (containers_patch a cna) cs = Ok (Some csa) ->
  patch_container b cnb (containers_patch b cnb) cs = Ok (Some csb) ->
  exists cab cba,
    patch_container b cnb (containers_patch b cnb) csa = Ok (Some cab)
    /\ patch_container a cna (containers_patch a cna) csb = Ok (Some cba)
    /\ Forall2 same_mounts cab cba.
Proof.
  intros Hne. revert csa csb.
  induction cs as [| c rest IH]; intros csa csb Ha Hb.
  - discriminate Ha.
  - rewrite patch_container_cons in Ha, Hb.
    destruct (get_object_name c) as [n |] eqn:En; [| discriminate].
    simpl in Ha, Hb.
    destruct (py_eq_str n cna) eqn:Ea, (py_eq_str n cnb) eqn:Eb.
    + destruct (remount a c) as [ca |] eqn:Ra; [| discriminate].
      destruct (remount b c) as [cb |] eqn:Rb; [| discriminate].
      simpl in Ha, Hb. injection Ha as <-. injection Hb as <-.
      destruct (remount_commute _ _ _ _ _ Hne Ra Rb)
        as (cab & cba & Hab & Hba & Hsame).
      exists (cab :: rest), (cba :: rest).
      rewrite !patch_container_cons.
      rewrite (remount_name _ _ _ Ra), (remount_name _ _ _ Rb), En. simpl.
      rewrite Ea, Eb, Hab, Hba. simpl.
      repeat split. constructor; [assumption | apply same_mounts_refl].
    + destruct (remount a c) as [ca |] eqn:Ra; [| discriminate].
      simpl in Ha. injection Ha as <-.
      destruct (patch_container b cnb (containers_patch b cnb) rest)
        as [[rb |] |] eqn:Pb; try discriminate.
      simpl in Hb. injection Hb as <-.
      exists (ca :: rb), (ca :: rb).
      rewrite !patch_container_cons.
      rewrite (remount_name _ _ _ Ra), En. simpl.
      rewrite Ea, Eb, Pb, Ra. simpl.
      repeat split. apply same_mounts_refl.
    + destruct (remount b c) as [cb |] eqn:Rb; [| discriminate].
      simpl in Hb. injection Hb as <-.
      destruct (patch_container a cna (containers_patch a cna) rest)
        as [[ra |] |] eqn:Pa; try discriminate.
      simpl in Ha. injection Ha as <-.
      exists (cb :: ra), (cb :: ra).
      rewrite !patch_container_cons.
      rewrite (remount_name _ _ _ Rb), En. simpl.
      rewrite Ea, Eb, Pa, Rb. simpl.
      repeat split. apply same_mounts_refl.
    + destruct (patch_container a cna (containers_patch a cna) rest)
        as [[ra |] |] eqn:Pa; try discriminate.
      destruct (patch_container b cnb (containers_patch b cnb) rest)
        as [[rb |] |] eqn:Pb; try discriminate.
      simpl in Ha, Hb. injection Ha as <-. injection Hb as <-.
      destruct (IH _ _ eq_refl eq_refl) as (cab & cba & Hab & Hba & Hsame).
      exists (c :: cab), (c :: cba).
      rewrite !patch_container_cons, En. simpl.
      rewrite Ea, Eb, Hab, Hba. simpl.
      repeat split. constructor; [left; reflexivity | assumption].
Qed.

(** When no container has the name, and the names of all can be read, the
    loop runs to its end. *)
Lemma patch_container_missing self cn cs :
  forallb (fun c => is_ok (get_object_name c) && negb (named cn c)) cs = true ->
  patch_container self cn (containers_patch self cn) cs = Ok None.
Proof.
  induction cs as [| c rest IH]; intros H; [reflexivity |].
  simpl in H. apply andb_true_iff in H as [Hc Hr].
  apply andb_true_iff in Hc as [Hok Hn].
  rewrite patch_container_cons. unfold named in Hn.
  destruct (get_object_name c) as [n |]; [| discriminate]. simpl.
  apply negb_true_iff in Hn. rewrite Hn, (IH Hr). reflexivity.
Qed.

(** ** The two steps on the typed form *)

Lemma sts_lists_inv sts c0 v0 :
  sts_containers sts = Ok c0 ->
  sts_volumes sts = Ok v0 ->
  exists pc pa,
    pod_spec sts = Ok (PObj pc pa)
    /\ assoc_get "containers" pa = Some c0
    /\ assoc_get "volumes" pa = Some v0.
Proof.
  unfold sts_containers, sts_volumes.
  destruct (pod_spec sts) as [pod |]; [| discriminate]. simpl.
  intros Hc Hv. apply getattr_inv in Hc as (pc & pa & -> & Hc).
  simpl in Hv. destruct (assoc_get "volumes" pa) eqn:E; [| discriminate].
  injection Hv as ->. eauto.
Qed.

Lemma with_pod_lists_eq sts pc pa cs vs :
  pod_spec sts = Ok (PObj pc pa) ->
  with_pod_lists sts cs vs
  = set_pod_spec sts
      (PObj pc (assoc_set "volumes" vs (assoc_set "containers" cs pa))).
Proof.
  intros H. unfold with_pod_lists. rewrite H. reflexivity.
Qed.

Section TypedSteps.

Variable merge : pyval -> pyval -> pyval * option exn.

Lemma add_volumes_typed_eq self sts cm pc pa vv :
  is_V1StatefulSet sts = true ->
  pod_spec sts = Ok (PObj pc pa) ->
  assoc_get "volumes" pa = Some vv ->
  _add_volumes_to_sts_spec merge self sts cm
  = all_or_nothing sts
      (let* l := py_iter vv in
       let* kept := keep_other (volume_mount_name self) l in
       set_pod_spec sts
         (PObj pc (assoc_set "volumes"
                     (PList (kept ++ [config_volume self cm])) pa))).
Proof.
  intros Ht Hp Hv. unfold _add_volumes_to_sts_spec.
  rewrite (typed_not_dict _ Ht), Ht. f_equal.
  rewrite Hp. cbn [bind py_getattr]. rewrite Hv. cbn [bind].
  destruct (py_iter vv) as [l |]; [| reflexivity]. cbn [bind].
  destruct (keep_other (volume_mount_name self) l) as [kept |];
    [| reflexivity].
  cbn [bind]. unfold set_pod_attr at 1. rewrite Hp. cbn [bind py_setattr].
  destruct (set_pod_spec_total sts _
              (PObj pc (assoc_set "volumes" (PList kept) pa)) Hp)
    as [s1 Hs1].
  rewrite Hs1. cbn [bind]. rewrite (pod_spec_set_pod_spec _ _ _ Hs1).
  cbn [bind py_getattr]. rewrite assoc_get_set_same. cbn [bind].
  unfold set_pod_attr. rewrite (pod_spec_set_pod_spec _ _ _ Hs1).
  cbn. rewrite assoc_set_set_same.
  apply (set_pod_spec_twice _ _ _ _ Hs1).
Qed.

Lemma add_containers_typed_eq self sts cn pc pa cs :
  is_V1StatefulSet sts = true ->
  pod_spec sts = Ok (PObj pc pa) ->
  assoc_get "containers" pa = Some (PList cs) ->
  _add_containers_to_sts_spec merge self sts cn
  = all_or_nothing sts
      (let* r := patch_container self cn (containers_patch self cn) cs in
       set_pod_spec sts
         (PObj pc (assoc_set "containers"
                     (PList (match r with
                             | Some cs' => cs'
                             | None => cs ++ [PStr "containers"]
                             end)) pa))).
Proof.
  intros Ht Hp Hc. unfold _add_containers_to_sts_spec.
  rewrite (typed_not_dict _ Ht), Ht. f_equal.
  rewrite Hp. cbn [bind py_getattr]. rewrite Hc. cbn [bind py_iter].
  destruct (patch_container self cn (containers_patch self cn) cs)
    as [[cs' |] |]; [| | reflexivity]; cbn [bind].
  - unfold set_pod_attr. rewrite Hp. reflexivity.
  - unfold set_pod_attr. rewrite Hp. reflexivity.
Qed.

End TypedSteps.

(** ** Replacing the lists of the pod template *)

Lemma with_pod_lists_obs sts cs vs s' :
  with_pod_lists sts cs vs = Ok s' ->
  sts_containers s' = Ok cs
  /\ sts_volumes s' = Ok vs
  /\ is_V1StatefulSet s' = is_V1StatefulSet sts.
Proof.
  unfold with_pod_lists. intros H.
  destruct (pod_spec sts) as [pod |]; [| discriminate]. simpl in H.
  destruct pod as [| | | | | | | pc pa]; try discriminate. simpl in H.
  unfold sts_containers, sts_volumes.
  rewrite (pod_spec_set_pod_spec _ _ _ H). simpl.
  rewrite assoc_get_set_same.
  rewrite assoc_get_set_other by discriminate.
  rewrite assoc_get_set_same.
  repeat split. apply (set_pod_spec_class _ _ _ H).
Qed.

Lemma with_pod_lists_twice sts cs vs s' c0 v0 cs2 vs2 :
  sts_containers sts = Ok c0 ->
  sts_volumes sts = Ok v0 ->
  with_pod_lists sts cs vs = Ok s' ->
  with_pod_lists s' cs2 vs2 = with_pod_lists sts cs2 vs2.
Proof.
  intros Hc Hv H.
  destruct (sts_lists_inv _ _ _ Hc Hv) as (pc & pa & Hp & Ec & Ev).
  rewrite (with_pod_lists_eq _ _ _ _ _ Hp) in H.
  rewrite (with_pod_lists_eq _ _ _ cs2 vs2 (pod_spec_set_pod_spec _ _ _ H)).
  rewrite (with_pod_lists_eq _ _ _ cs2 vs2 Hp).
  rewrite (set_pod_spec_twice _ _ _ _ H).
  rewrite (assoc_set_absorb "containers" "volumes" cs vs cs2 c0)
    by (discriminate || assumption).
  rewrite (assoc_set_absorb "volumes" "containers" vs cs2 vs2 v0)
    by (discriminate || assumption).
  reflexivity.
Qed.

(** ** [add_to_sts_spec] on a typed StatefulSet that has the container *)

Section TypedMerge.

Variable merge : pyval -> pyval -> pyval * option exn.

Lemma add_typed_found self sts cn cm cs cs' vv vl :
  is_V1StatefulSet sts = true ->
  sts_containers sts = Ok (PList cs) ->
  sts_volumes sts = Ok vv ->
  patch_container self cn (containers_patch self cn) cs = Ok (Some cs') ->
  py_iter vv = Ok vl ->
  forallb nameable vl = true ->
  exists s',
    add_to_sts_spec merge self sts cn cm = Returned s'
    /\ with_pod_lists sts (PList cs')
         (PList (filter (keeps (volume_mount_name self)) vl
                 ++ [config_volume self cm])) = Ok s'.
Proof.
  intros Ht Hc Hv Hpc Hi Hn.
  destruct (sts_lists_inv _ _ _ Hc Hv) as (pc & pa & Hp & Ec & Ev).
  unfold add_to_sts_spec.
  rewrite (add_containers_typed_eq merge self sts cn pc pa cs Ht Hp Ec).
  rewrite Hpc. cbn [bind].
  destruct (set_pod_spec_total sts _
              (PObj pc (assoc_set "containers" (PList cs') pa)) Hp)
    as [s1 Hs1].
  rewrite Hs1. cbn [all_or_nothing].
  assert (Ht1 : is_V1StatefulSet s1 = true).
  { rewrite (proj1 (set_pod_spec_class _ _ _ Hs1)). exact Ht. }
  rewrite (add_volumes_typed_eq merge self s1 cm pc _ vv Ht1
             (pod_spec_set_pod_spec _ _ _ Hs1))
    by (rewrite assoc_get_set_other by discriminate; exact Ev).
  rewrite Hi. cbn [bind]. rewrite (filter_keep_other _ _ Hn). cbn [bind].
  rewrite (set_pod_spec_twice _ _ _ _ Hs1).
  rewrite (with_pod_lists_eq _ _ _ _ _ Hp).
  destruct (set_pod_spec_total sts _
              (PObj pc
                 (assoc_set "volumes"
                    (PList (filter (keeps (volume_mount_name self)) vl
                            ++ [config_volume self cm]))
                    (assoc_set "containers" (PList cs') pa))) Hp)
    as [s2 Hs2].
  rewrite Hs2. exists s2. split; reflexivity.
Qed.

Lemma add_typed_found_inv self sts cn cm s' :
  is_V1StatefulSet sts = true ->
  has_container cn sts = true ->
  add_to_sts_spec merge self sts cn cm = Returned s' ->
  exists cs cs' vv vl,
    sts_containers sts = Ok (PList cs)
    /\ sts_volumes sts = Ok vv
    /\ patch_container self cn (containers_patch self cn) cs = Ok (Some cs')
    /\ py_iter vv = Ok vl
    /\ forallb nameable vl = true
    /\ with_pod_lists sts (PList cs')
         (PList (filter (keeps (volume_mount_name self)) vl
                 ++ [config_volume self cm])) = Ok s'.
Proof.
  intros Ht Hh Hadd. unfold has_container in Hh.
  destruct (sts_containers sts) as [[| | | | | cs | |] |] eqn:Hc;
    try discriminate.
  assert (Hc' := Hc). unfold sts_containers in Hc'.
  destruct (pod_spec sts) as [pod |] eqn:Hp; [| discriminate].
  simpl in Hc'. apply getattr_inv in Hc' as (pc & pa & -> & Ec).
  unfold add_to_sts_spec in Hadd.
  rewrite (add_containers_typed_eq merge self sts cn pc pa cs Ht Hp Ec)
    in Hadd.
  destruct (patch_container self cn (containers_patch self cn) cs)
    as [[cs' |] |] eqn:Hpc; cbn [bind] in Hadd.
  - destruct (set_pod_spec_total sts _
                (PObj pc (assoc_set "containers" (PList cs') pa)) Hp)
      as [s1 Hs1].
    rewrite Hs1 in Hadd. cbn [all_or_nothing] in Hadd.
    assert (Ht1 : is_V1StatefulSet s1 = true).
    { rewrite (proj1 (set_pod_spec_class _ _ _ Hs1)). exact Ht. }
    destruct (assoc_get "volumes" pa) as [vv |] eqn:Ev.
    + assert (Hv : sts_volumes sts = Ok vv).
      { unfold sts_volumes. rewrite Hp. simpl. rewrite Ev. reflexivity. }
      rewrite (add_volumes_typed_eq merge self s1 cm pc _ vv Ht1
                 (pod_spec_set_pod_spec _ _ _ Hs1)) in Hadd
        by (rewrite assoc_get_set_other by discriminate; exact Ev).
      destruct (py_iter vv) as [vl |] eqn:Hi; [| discriminate].
      cbn [bind] in Hadd.
      destruct (keep_other (volume_mount_name self) vl) as [k |] eqn:Hk;
        [| discriminate].
      cbn [bind] in Hadd.
      apply keep_other_filter in Hk as [Hn ->].
      destruct (add_typed_found self sts cn cm cs cs' vv vl
                  Ht Hc Hv Hpc Hi Hn) as (s2 & Hadd2 & Hw).
      exists cs, cs', vv, vl. repeat split; try assumption.
      rewrite Hw. f_equal.
      unfold add_to_sts_spec in Hadd2.
      rewrite (add_containers_typed_eq merge self sts cn pc pa cs Ht Hp Ec)
        in Hadd2.
      rewrite Hpc in Hadd2. cbn [bind] in Hadd2. rewrite Hs1 in Hadd2.
      cbn [all_or_nothing] in Hadd2.
      rewrite (add_volumes_typed_eq merge self s1 cm pc _ vv Ht1
                 (pod_spec_set_pod_spec _ _ _ Hs1)) in Hadd2
        by (rewrite assoc_get_set_other by discriminate; exact Ev).
      rewrite Hi in Hadd2. cbn [bind] in Hadd2.
      rewrite (filter_keep_other _ _ Hn) in Hadd2.
      cbn [bind] in Hadd2. congruence.
    + exfalso. unfold _add_volumes_to_sts_spec in Hadd.
      rewrite (typed_not_dict _ Ht1), Ht1 in Hadd.
      rewrite (pod_spec_set_pod_spec _ _ _ Hs1) in Hadd.
      cbn [bind py_getattr] in Hadd.
      rewrite assoc_get_set_other in Hadd by discriminate.
      rewrite Ev in Hadd. discriminate Hadd.
  - pose proof (patch_container_found _ _ _ _ Hpc) as Hf.
    simpl in Hf. congruence.
  - discriminate Hadd.
Qed.

End TypedMerge.

Lemma kept_appended_perm na nb (x y : pyval) l :
  keeps nb x = true ->
  keeps na y = true ->
  Permutation
    (filter (keeps nb) (filter (keeps na) l ++ [x]) ++ [y])
    (filter (keeps na) (filter (keeps nb) l ++ [y]) ++ [x]).
Proof.
  intros Hx Hy. rewrite !filter_app. cbn [filter]. rewrite Hx, Hy.
  rewrite (filter_comm (keeps nb)). rewrite <- !app_assoc.
  apply Permutation_app_head. simpl. apply perm_swap.
Qed.

Lemma keeps_other_volume a b cm :
  volume_mount_name a <> volume_mount_name b ->
  keeps (volume_mount_name b) (config_volume a cm) = true.
Proof.
  intros Hne. rewrite (proj2 (proj2 (proj2 (config_volume_facts a cm _)))).
  destruct (String.eqb_spec (volume_mount_name a) (volume_mount_name b));
    [contradiction | reflexivity].
Qed.

(** What [add_to_sts_spec] leaves in a typed StatefulSet that has a
    container of the given name, when it returns: one Volume of the
    descriptor's name, the one sourced from the ConfigMap, and in the first
    container of the given name one VolumeMount of that name, the one of the
    descriptor. *)
Lemma add_to_sts_spec_found_post merge self sts cn cm s' :
  is_V1StatefulSet sts = true ->
  has_container cn sts = true ->
  add_to_sts_spec merge self sts cn cm = Returned s' ->
  (exists vs,
     sts_volumes s' = Ok (PList vs)
     /\ filter (named (volume_mount_name self)) vs = [config_volume self cm])
  /\ (exists cs c ms,
        sts_containers s' = Ok (PList cs)
        /\ find (named cn) cs = Some c
        /\ py_getattr c "volume_mounts" = Ok (PList ms)
        /\ filter (named (volume_mount_name self)) ms = [config_mount self]).
Proof.
  intros Ht Hh Hadd.
  destruct (add_typed_found_inv merge self sts cn cm s' Ht Hh Hadd)
    as (cs & cs' & vv & vl & Hc & Hv & Hpc & Hi & Hn & Hw).
  destruct (with_pod_lists_obs _ _ _ _ Hw) as (Hc' & Hv' & _).
  split.
  - eexists. split; [exact Hv' |].
    apply filter_named_appended. simpl. apply String.eqb_refl.
  - destruct (patch_container_post _ _ _ _ Hpc) as (c & ms & Hf & Hg & Hm).
    exists cs', c, ms. auto.
Qed.

(** On such a StatefulSet a second application changes nothing. *)
Lemma add_to_sts_spec_found_idempotent merge self sts cn cm s' :
  is_V1StatefulSet sts = true ->
  has_container cn sts = true ->
  add_to_sts_spec merge self sts cn cm = Returned s' ->
  add_to_sts_spec merge self s' cn cm = Returned s'.
Proof.
  intros Ht Hh Hadd.
  destruct (add_typed_found_inv merge self sts cn cm s' Ht Hh Hadd)
    as (cs & cs' & vv & vl & Hc & Hv & Hpc & Hi & Hn & Hw).
  destruct (with_pod_lists_obs _ _ _ _ Hw) as (Hc' & Hv' & Ht').
  rewrite Ht in Ht'.
  destruct (add_typed_found merge self s' cn cm cs' cs' _ _
              Ht' Hc' Hv' (patch_container_idem _ _ _ _ Hpc) eq_refl)
    as (s2 & Hadd2 & Hw2).
  { apply forallb_app_single; [apply forallb_filter; exact Hn | reflexivity]. }
  rewrite Hadd2. f_equal.
  rewrite (with_pod_lists_twice _ _ _ _ _ _ _ _ Hc Hv Hw) in Hw2.
  rewrite filter_app, filter_idem in Hw2. cbn [filter] in Hw2.
  rewrite (proj2 (proj2 (proj2 (config_volume_facts self cm _)))) in Hw2.
  rewrite String.eqb_refl in Hw2. simpl negb in Hw2. cbv iota in Hw2.
  rewrite app_nil_r in Hw2. congruence.
Qed.

(** ** The order of two applications *)

(** C4 as stated does not hold: on a StatefulSet with one container and no
    volume, the general log and then the error log leave the two volumes
    and the two mounts in one order, the error log and then the general log
    in the other. *)
Lemma add_to_sts_spec_order_shows :
  exists s1 s2 s12 s21,
    add_to_sts_spec merge_absent (GeneralLogSpec.base GeneralLogSpec.init)
      (V1StatefulSet (PList [V1Container "mysql" (PList [])]) (PList []))
      "mysql" "cm" = Returned s1
    /\ add_to_sts_spec merge_absent (ErrorLogSpec.base ErrorLogSpec.init)
         s1 "mysql" "cm" = Returned s12
    /\ add_to_sts_spec merge_absent (ErrorLogSpec.base ErrorLogSpec.init)
         (V1StatefulSet (PList [V1Container "mysql" (PList [])]) (PList []))
         "mysql" "cm" = Returned s2
    /\ add_to_sts_spec merge_absent (GeneralLogSpec.base GeneralLogSpec.init)
         s2 "mysql" "cm" = Returned s21
    /\ s12 <> s21.
Proof.
  do 4 eexists. repeat split; try (vm_compute; reflexivity).
  vm_compute. intros H. discriminate H.
Qed.

(** C4, amended: on a typed StatefulSet that has the container each call
    names, two descriptors with distinct volume names, each of which can be
    applied, can be applied one after the other in both orders, and the two
    results are the same StatefulSet up to the order of the volumes and of
    the mounts of each container. *)
Theorem add_to_sts_spec_order merge a b sts cna cma cnb cmb sa sb :
  is_V1StatefulSet sts = true ->
  volume_mount_name a <> volume_mount_name b ->
  has_container cna sts = true ->
  has_container cnb sts = true ->
  add_to_sts_spec merge a sts cna cma = Returned sa ->
  add_to_sts_spec merge b sts cnb cmb = Returned sb ->
  exists sab sba,
    add_to_sts_spec merge b sa cnb cmb = Returned sab
    /\ add_to_sts_spec merge a sb cna cma = Returned sba
    /\ same_template sab sba.
Proof.
  intros Ht Hne Hha Hhb Ha Hb.
  destruct (add_typed_found_inv merge a sts cna cma sa Ht Hha Ha)
    as (cs & csa & vv & vl & Hc & Hv & Hpa & Hi & Hn & Hwa).
  destruct (add_typed_found_inv merge b sts cnb cmb sb Ht Hhb Hb)
    as (cs2 & csb & vv2 & vl2 & Hc2 & Hv2 & Hpb & Hi2 & _ & Hwb).
  rewrite Hc in Hc2. injection Hc2 as <-.
  rewrite Hv in Hv2. injection Hv2 as <-.
  rewrite Hi in Hi2. injection Hi2 as <-.
  destruct (patch_container_commute _ _ _ _ _ _ _ Hne Hpa Hpb)
    as (cab & cba & Hab & Hba & Hsame).
  destruct (with_pod_lists_obs _ _ _ _ Hwa) as (Hca & Hva & Hta).
  destruct (with_pod_lists_obs _ _ _ _ Hwb) as (Hcb & Hvb & Htb).
  rewrite Ht in Hta, Htb.
  destruct (add_typed_found merge b sa cnb cmb csa cab _ _
              Hta Hca Hva Hab eq_refl) as (sab & Hadd1 & Hw1).
  { apply forallb_app_single; [apply forallb_filter; exact Hn | reflexivity]. }
  destruct (add_typed_found merge a sb cna cma csb cba _ _
              Htb Hcb Hvb Hba eq_refl) as (sba & Hadd2 & Hw2).
  { apply forallb_app_single; [apply forallb_filter; exact Hn | reflexivity]. }
  rewrite (with_pod_lists_twice _ _ _ _ _ _ _ _ Hc Hv Hwa) in Hw1.
  rewrite (with_pod_lists_twice _ _ _ _ _ _ _ _ Hc Hv Hwb) in Hw2.
  exists sab, sba. split; [exact Hadd1 |]. split; [exact Hadd2 |].
  destruct (with_pod_lists_obs _ _ _ _ Hw1) as (Hc1 & Hv1 & _).
  unfold same_template. do 4 eexists.
  split; [exact Hc1 |]. split; [exact Hv1 |]. split; [exact Hsame |].
  split.
  - apply kept_appended_perm.
    + apply keeps_other_volume. exact Hne.
    + apply keeps_other_volume. intros E. apply Hne. symmetry. exact E.
  - rewrite (with_pod_lists_twice _ _ _ _ _ _ _ _ Hc Hv Hw1). exact Hw2.
Qed.

Lemma add_to_sts_spec_order_witness :
  exists sab sba,
    add_to_sts_spec merge_absent (ErrorLogSpec.base ErrorLogSpec.init)
      (V1StatefulSet
         (PList [V1Container "mysql"
                   (PList [config_mount
                             (GeneralLogSpec.base GeneralLogSpec.init)])])
         (PList [config_volume
                   (GeneralLogSpec.base GeneralLogSpec.init) "cm"]))
      "mysql" "cm" = Returned sab
    /\ add_to_sts_spec merge_absent (GeneralLogSpec.base GeneralLogSpec.init)
         (V1StatefulSet
            (PList [V1Container "mysql"
                      (PList [config_mount
                                (ErrorLogSpec.base ErrorLogSpec.init)])])
            (PList [config_volume
                      (ErrorLogSpec.base ErrorLogSpec.init) "cm"]))
         "mysql" "cm" = Returned sba
    /\ same_template sab sba.
Proof.
  exact (add_to_sts_spec_order merge_absent
           (GeneralLogSpec.base GeneralLogSpec.init)
           (ErrorLogSpec.base ErrorLogSpec.init)
           (V1StatefulSet (PList [V1Container "mysql" (PList [])]) (PList []))
           "mysql" "cm" "mysql" "cm" _ _
           eq_refl
           ltac:(discriminate) eq_refl eq_refl eq_refl eq_refl).
Defined.

(** ** A StatefulSet without the container *)

Lemma patch_container_stray self cn cs s :
  forallb (fun c => is_ok (get_object_name c) && negb (named cn c)) cs = true ->
  patch_container self cn (containers_patch self cn) (cs ++ [PStr s])
  = Raise AttributeError.
Proof.
  induction cs as [| c rest IH]; intros H; [reflexivity |].
  simpl in H. apply andb_true_iff in H as [Hc Hr].
  apply andb_true_iff in Hc as [Hok Hn].
  rewrite <- app_comm_cons, patch_container_cons. unfold named in Hn.
  destruct (get_object_name c) as [n |]; [| discriminate]. simpl.
  apply negb_true_iff in Hn. rewrite Hn, (IH Hr). reflexivity.
Qed.

Lemma none_named cn cs :
  forallb (fun c => is_ok (get_object_name c) && negb (named cn c)) cs = true ->
  existsb (named cn) cs = false.
Proof.
  induction cs as [| c rest IH]; intros H; [reflexivity |].
  simpl in H. apply andb_true_iff in H as [Hc Hr].
  apply andb_true_iff in Hc as [_ Hn]. apply negb_true_iff in Hn.
  simpl. rewrite Hn, (IH Hr). reflexivity.
Qed.

(** C3, what the code does: when the typed StatefulSet has no container of
    the given name, [_add_containers_to_sts_spec] returns with the list of
    containers extended by the string [containers], the key of the patch
    dictionary, and not by a container: afterwards no entry of the list is
    named as asked and none carries the mount, and the next call on that
    StatefulSet raises [AttributeError] when it reads the name of the
    string. *)
Theorem add_containers_without_container merge self sts cn cs :
  is_V1StatefulSet sts = true ->
  sts_containers sts = Ok (PList cs) ->
  forallb (fun c => is_ok (get_object_name c) && negb (named cn c)) cs = true ->
  exists s',
    _add_containers_to_sts_spec merge self sts cn = Returned s'
    /\ sts_containers s' = Ok (PList (cs ++ [PStr "containers"]))
    /\ has_container cn s' = false
    /\ _add_containers_to_sts_spec merge self s' cn = Raised AttributeError s'.
Proof.
  intros Ht Hc Hall. assert (Hc' := Hc). unfold sts_containers in Hc'.
  destruct (pod_spec sts) as [pod |] eqn:Hp; [| discriminate].
  simpl in Hc'. apply getattr_inv in Hc' as (pc & pa & -> & Ec).
  rewrite (add_containers_typed_eq merge self sts cn pc pa cs Ht Hp Ec).
  rewrite (patch_container_missing _ _ _ Hall). cbn [bind].
  destruct (set_pod_spec_total sts _
              (PObj pc (assoc_set "containers"
                          (PList (cs ++ [PStr "containers"])) pa)) Hp)
    as [s' Hs'].
  rewrite Hs'. exists s'. cbn [all_or_nothing].
  assert (Hcs : sts_containers s' = Ok (PList (cs ++ [PStr "containers"]))).
  { unfold sts_containers. rewrite (pod_spec_set_pod_spec _ _ _ Hs'). simpl.
    rewrite assoc_get_set_same. reflexivity. }
  repeat split.
  - exact Hcs.
  - unfold has_container. rewrite Hcs, existsb_app, (none_named _ _ Hall).
    reflexivity.
  - rewrite (add_containers_typed_eq merge self s' cn pc
               (assoc_set "containers"
                  (PList (cs ++ [PStr "containers"])) pa)
               (cs ++ [PStr "containers"])).
    + rewrite (patch_container_stray _ _ _ _ Hall). reflexivity.
    + rewrite (proj1 (set_pod_spec_class _ _ _ Hs')). exact Ht.
    + exact (pod_spec_set_pod_spec _ _ _ Hs').
    + apply assoc_get_set_same.
Qed.

Lemma add_containers_without_container_witness :
  exists s',
    _add_containers_to_sts_spec merge_absent
      (GeneralLogSpec.base GeneralLogSpec.init)
      (V1StatefulSet (PList [V1Container "mysql" (PList [])]) (PList []))
      "logcollector" = Returned s'
    /\ sts_containers s'
       = Ok (PList [V1Container "mysql" (PList []); PStr "containers"])
    /\ has_container "logcollector" s' = false
    /\ _add_containers_to_sts_spec merge_absent
         (GeneralLogSpec.base GeneralLogSpec.init) s' "logcollector"
       = Raised AttributeError s'.
Proof.
  exact (add_containers_without_container merge_absent
           (GeneralLogSpec.base GeneralLogSpec.init)
           (V1StatefulSet (PList [V1Container "mysql" (PList [])]) (PList []))
           "logcollector" [V1Container "mysql" (PList [])]
           eq_refl eq_refl eq_refl).
Defined.

(** C1, what the code does on a StatefulSet without the container: the call
    returns, the Volume is there, and the list of containers has gained the
    string [containers]; no container named as asked exists and no entry
    carries the mount. *)
Theorem add_to_sts_spec_without_container merge :
  add_to_sts_spec merge (GeneralLogSpec.base GeneralLogSpec.init)
    (V1StatefulSet (PList [V1Container "mysql" (PList [])]) (PList []))
    "logcollector" "cm"
  = Returned
      (V1StatefulSet
         (PList [V1Container "mysql" (PList []); PStr "containers"])
         (PList [config_volume
                   (GeneralLogSpec.base GeneralLogSpec.init) "cm"]))
  /\ has_container "logcollector"
       (V1StatefulSet
          (PList [V1Container "mysql" (PList []); PStr "containers"])
          (PList [config_volume
                    (GeneralLogSpec.base GeneralLogSpec.init) "cm"]))
     = false.
Proof.
  split; reflexivity.
Qed.

(** C2, what the code does on a StatefulSet without the container: the first
    application returns, the second raises [AttributeError] and leaves the
    StatefulSet as the first left it, with the Volume, with the string
    [containers] among the containers, and with no mount of that name. *)
Theorem add_to_sts_spec_twice_without_container merge :
  add_to_sts_spec merge (GeneralLogSpec.base GeneralLogSpec.init)
    (V1StatefulSet (PList [V1Container "mysql" (PList [])]) (PList []))
    "logcollector" "cm"
  = Returned
      (V1StatefulSet
         (PList [V1Container "mysql" (PList []); PStr "containers"])
         (PList [config_volume
                   (GeneralLogSpec.base GeneralLogSpec.init) "cm"]))
  /\ add_to_sts_spec merge (GeneralLogSpec.base GeneralLogSpec.init)
       (V1StatefulSet
          (PList [V1Container "mysql" (PList []); PStr "containers"])
          (PList [config_volume
                    (GeneralLogSpec.base GeneralLogSpec.init) "cm"]))
       "logcollector" "cm"
     = Raised AttributeError
         (V1StatefulSet
            (PList [V1Container "mysql" (PList []); PStr "containers"])
            (PList [config_volume
                      (GeneralLogSpec.base GeneralLogSpec.init) "cm"])).
Proof.
  split; reflexivity.
Qed.

(** ** The generic form *)


(** ** A StatefulSet with the container *)

Lemma add_to_sts_spec_found_post_witness :
  (exists vs,
     sts_volumes
       (V1StatefulSet
          (PList [V1Container "mysql"
                    (PList [config_mount
                              (GeneralLogSpec.base GeneralLogSpec.init)])])
          (PList [config_volume
                    (GeneralLogSpec.base GeneralLogSpec.init) "cm"]))
     = Ok (PList vs)
     /\ filter (named "general-log-config") vs
        = [config_volume (GeneralLogSpec.base GeneralLogSpec.init) "cm"])
  /\ (exists cs c ms,
        sts_containers
          (V1StatefulSet
             (PList [V1Container "mysql"
                       (PList [config_mount
                                 (GeneralLogSpec.base GeneralLogSpec.init)])])
             (PList [config_volume
                       (GeneralLogSpec.base GeneralLogSpec.init) "cm"]))
        = Ok (PList cs)
        /\ find (named "mysql") cs = Some c
        /\ py_getattr c "volume_mounts" = Ok (PList ms)
        /\ filter (named "general-log-config") ms
           = [config_mount (GeneralLogSpec.base GeneralLogSpec.init)]).
Proof.
  exact (add_to_sts_spec_found_post merge_absent
           (GeneralLogSpec.base GeneralLogSpec.init)
           (V1StatefulSet
              (PList [V1Container "mysql"
                        (PList [PNone;
                                PDict [("name", PStr "general-log-config");
                                       ("mountPath", PStr "/old/path")]])])
              (PList [PDict [("name", PStr "general-log-config")]]))
           "mysql" "cm" _ eq_refl eq_refl eq_refl).
Defined.

Lemma add_to_sts_spec_found_idempotent_witness :
  add_to_sts_spec merge_absent (GeneralLogSpec.base GeneralLogSpec.init)
    (V1StatefulSet
       (PList [V1Container "mysql"
                 (PList [config_mount
                           (GeneralLogSpec.base GeneralLogSpec.init)])])
       (PList [config_volume (GeneralLogSpec.base GeneralLogSpec.init) "cm"]))
    "mysql" "cm"
  = Returned
      (V1StatefulSet
         (PList [V1Container "mysql"
                   (PList [config_mount
                             (GeneralLogSpec.base GeneralLogSpec.init)])])
         (PList [config_volume
                   (GeneralLogSpec.base GeneralLogSpec.init) "cm"])).
Proof.
  exact (add_to_sts_spec_found_idempotent merge_absent
           (GeneralLogSpec.base GeneralLogSpec.init)
           (V1StatefulSet
              (PList [V1Container "mysql"
                        (PList [PNone;
                                PDict [("name", PStr "general-log-config");
                                       ("mountPath", PStr "/old/path")]])])
              (PList [PDict [("name", PStr "general-log-config")]]))
           "mysql" "cm" _ eq_refl eq_refl eq_refl).
Defined.

(** * Further properties of the mount merge *)

(** ** Entries of another name *)

(** An entry that has a name is truthy: it is a dictionary with a key or an
    object. *)
Lemma named_truthy n x : named n x = true -> py_truthy x = true.
Proof.
  unfold named. destruct x as [| | | | | | d | cls attrs]; simpl;
    try discriminate; [| reflexivity].
  destruct d; [discriminate | reflexivity].
Qed.

Lemma named_unique n m x : named n x = true -> n <> m -> named m x = false.
Proof.
  unfold named. destruct (get_object_name x) as [v |]; [| discriminate].
  destruct v; simpl; try discriminate.
  intros Hn Hne. apply String.eqb_eq in Hn. subst.
  apply String.eqb_neq. exact Hne.
Qed.

Lemma filter_named_other n m l :
  n <> m -> filter (named n) (filter (keeps m) l) = filter (named n) l.
Proof.
  intros Hne. induction l as [| x r IH]; [reflexivity |].
  cbn [filter]. destruct (named n x) eqn:Hn.
  - assert (K : keeps m x = true).
    { unfold keeps.
      rewrite (named_truthy _ _ Hn), (named_unique _ _ _ Hn Hne).
      reflexivity. }
    rewrite K. cbn [filter]. rewrite Hn, IH. reflexivity.
  - destruct (keeps m x); cbn [filter]; rewrite ?Hn; exact IH.
Qed.

(** ** The shape of the list of containers after the loop *)

Lemma patch_container_shape self cn cs cs' :
  patch_container self cn (containers_patch self cn) cs = Ok (Some cs') ->
  exists pre c c' post,
    cs = pre ++ c :: post
    /\ cs' = pre ++ c' :: post
    /\ existsb (named cn) pre = false
    /\ named cn c = true
    /\ remount self c = Ok c'.
Proof.
  revert cs'. induction cs as [| c rest IH]; intros cs' H.
  - discriminate H.
  - rewrite patch_container_cons in H.
    destruct (get_object_name c) as [m |] eqn:En; [| discriminate].
    simpl in H. destruct (py_eq_str m cn) eqn:Em.
    + destruct (remount self c) as [c' |] eqn:Er; [| discriminate].
      simpl in H. injection H as <-.
      exists [], c, c', rest. repeat split; try assumption.
      unfold named. rewrite En. exact Em.
    + destruct (patch_container self cn (containers_patch self cn) rest)
        as [[r' |] |]; try discriminate.
      simpl in H. injection H as <-.
      destruct (IH _ eq_refl) as (pre & c0 & c0' & post & -> & -> & Hp & Hc & Hr).
      exists (c :: pre), c0, c0', post. repeat split; try assumption.
      simpl. unfold named at 1. rewrite En, Em. exact Hp.
Qed.

Lemma patch_container_skip self cn pre l :
  forallb (fun c => is_ok (get_object_name c) && negb (named cn c)) pre = true ->
  patch_container self cn (containers_patch self cn) (pre ++ l)
  = let* r := patch_container self cn (containers_patch self cn) l in
    Ok (option_map (app pre) r).
Proof.
  induction pre as [| c rest IH]; intros H.
  - simpl. destruct (patch_container self cn (containers_patch self cn) l)
      as [[r |] |]; reflexivity.
  - simpl in H. apply andb_true_iff in H as [Hc Hr].
    apply andb_true_iff in Hc as [Hok Hn].
    rewrite <- app_comm_cons, patch_container_cons. unfold named in Hn.
    destruct (get_object_name c) as [n |]; [| discriminate]. simpl.
    apply negb_true_iff in Hn. rewrite Hn, (IH Hr).
    destruct (patch_container self cn (containers_patch self cn) l)
      as [[r |] |]; reflexivity.
Qed.

Lemma find_skip {A : Type} (p : A -> bool) pre x post :
  existsb p pre = false -> p x = true -> find p (pre ++ x :: post) = Some x.
Proof.
  induction pre as [| y r IH]; simpl; intros Hp Hx.
  - rewrite Hx. reflexivity.
  - apply orb_false_iff in Hp as [Hy Hr]. rewrite Hy. auto.
Qed.

(** A descriptor of the same volume name undoes what the first one did to the
    container. *)
Lemma remount_same_name a b c ca :
  volume_mount_name a = volume_mount_name b ->
  remount a c = Ok ca ->
  exists cb, remount b c = Ok cb /\ remount b ca = Ok cb.
Proof.
  intros Heq Ha.
  apply remount_inv in Ha as (cls & attrs & mv & ml & -> & Ea & Ei & Hn & ->).
  eexists. split.
  - eapply remount_intro; eassumption.
  - erewrite remount_intro;
      [| apply assoc_get_set_same | reflexivity
       | apply forallb_app_single;
         [apply forallb_filter; exact Hn | reflexivity]].
    rewrite assoc_set_set_same, filter_app. rewrite <- Heq, filter_idem.
    cbn [filter].
    rewrite (proj2 (proj2 (proj2 (config_mount_facts a _)))).
    rewrite String.eqb_refl. simpl negb. cbv iota. rewrite app_nil_r.
    rewrite Heq. reflexivity.
Qed.

Lemma patch_container_same_name a b cn cs csa :
  volume_mount_name a = volume_mount_name b ->
  patch_container a cn (containers_patch a cn) cs = Ok (Some csa) ->
  exists csb,
    patch_container b cn (containers_patch b cn) cs = Ok (Some csb)
    /\ patch_container b cn (containers_patch b cn) csa = Ok (Some csb).
Proof.
  intros Heq. revert csa. induction cs as [| c rest IH]; intros csa H.
  - discriminate H.
  - rewrite patch_container_cons in H.
    destruct (get_object_name c) as [m |] eqn:En; [| discriminate].
    simpl in H. destruct (py_eq_str m cn) eqn:Em.
    + destruct (remount a c) as [ca |] eqn:Er; [| discriminate].
      simpl in H. injection H as <-.
      destruct (remount_same_name _ _ _ _ Heq Er) as (cb & Hb1 & Hb2).
      exists (cb :: rest). rewrite !patch_container_cons.
      rewrite (remount_name _ _ _ Er), En. simpl. rewrite Em, Hb1, Hb2.
      split; reflexivity.
    + destruct (patch_container a cn (containers_patch a cn) rest)
        as [[r' |] |]; try discriminate.
      simpl in H. injection H as <-.
      destruct (IH _ eq_refl) as (rb & Hb1 & Hb2).
      exists (c :: rb). rewrite !patch_container_cons, En. simpl.
      rewrite Em, Hb1, Hb2. split; reflexivity.
Qed.

(** ** What a returning call changes and what it keeps *)



(** A call for one descriptor leaves the volumes of every other name, and
    the mounts of every other name in the container it changes, as they
    were. *)
Theorem add_to_sts_spec_other_names merge self sts cn cm n vs s' :
  is_V1StatefulSet sts = true ->
  has_container cn sts = true ->
  n <> volume_mount_name self ->
  sts_volumes sts = Ok (PList vs) ->
  add_to_sts_spec merge self sts cn cm = Returned s' ->
  (exists vs',
     sts_volumes s' = Ok (PList vs')
     /\ filter (named n) vs' = filter (named n) vs)
  /\ (exists cs cs' c c',
        sts_containers sts = Ok (PList cs)
        /\ sts_containers s' = Ok (PList cs')
        /\ find (named cn) cs = Some c
        /\ find (named cn) cs' = Some c'
        /\ forall ms,
             py_getattr c "volume_mounts" = Ok (PList ms) ->
             exists ms',
               py_getattr c' "volume_mounts" = Ok (PList ms')
               /\ filter (named n) ms' = filter (named n) ms).
Proof.
  intros Ht Hh Hne Hvs Hadd.
  destruct (add_typed_found_inv merge self sts cn cm s' Ht Hh Hadd)
    as (cs & cs' & vv & vl & Hc & Hv & Hpc & Hi & Hn & Hw).
  rewrite Hvs in Hv. injection Hv as <-. simpl in Hi. injection Hi as <-.
  destruct (with_pod_lists_obs _ _ _ _ Hw) as (Hc' & Hv' & _).
  assert (Hnew : forall x, named (volume_mount_name self) x = true ->
                           named n x = false).
  { intros x Hx. apply (named_unique _ _ _ Hx).
    intros E. apply Hne. symmetry. exact E. }
  split.
  - eexists. split; [exact Hv' |].
    rewrite filter_app, (filter_named_other _ _ _ Hne). cbn [filter].
    rewrite (Hnew (config_volume self cm))
      by (simpl; apply String.eqb_refl).
    apply app_nil_r.
  - destruct (patch_container_shape _ _ _ _ Hpc)
      as (pre & c & c' & post & -> & -> & Hpre & Hc0 & Hr).
    exists (pre ++ c :: post), (pre ++ c' :: post), c, c'.
    split; [exact Hc |]. split; [exact Hc' |].
    split; [apply find_skip; assumption |].
    split; [apply find_skip;
            [assumption | rewrite (remount_named _ _ _ cn Hr); exact Hc0] |].
    intros ms Hms.
    apply remount_inv in Hr as (cls & attrs & mv & ml & -> & Ea & Ei & _ & ->).
    simpl in Hms. rewrite Ea in Hms. injection Hms as ->.
    simpl in Ei. injection Ei as <-.
    eexists. split.
    + simpl. rewrite assoc_get_set_same. reflexivity.
    + rewrite filter_app, (filter_named_other _ _ _ Hne). cbn [filter].
      rewrite (Hnew (config_mount self)) by (simpl; apply String.eqb_refl).
      apply app_nil_r.
Qed.

Lemma add_to_sts_spec_other_names_witness :
  (exists vs',
     sts_volumes
       (V1StatefulSet
          (PList [V1Container "mysql"
                    (PList [config_mount
                              (GeneralLogSpec.base GeneralLogSpec.init);
                            config_mount
                              (ErrorLogSpec.base ErrorLogSpec.init)])])
          (PList [config_volume
                    (GeneralLogSpec.base GeneralLogSpec.init) "cm";
                  config_volume
                    (ErrorLogSpec.base ErrorLogSpec.init) "cm"]))
     = Ok (PList vs')
     /\ filter (named "general-log-config") vs'
        = filter (named "general-log-config")
            [config_volume (GeneralLogSpec.base GeneralLogSpec.init) "cm"])
  /\ (exists cs cs' c c',
        sts_containers
          (V1StatefulSet
             (PList [V1Container "mysql"
                       (PList [config_mount
                                 (GeneralLogSpec.base GeneralLogSpec.init)])])
             (PList [config_volume
                       (GeneralLogSpec.base GeneralLogSpec.init) "cm"]))
        = Ok (PList cs)
        /\ sts_containers
             (V1StatefulSet
                (PList [V1Container "mysql"
                          (PList [config_mount
                                    (GeneralLogSpec.base GeneralLogSpec.init);
                                  config_mount
                                    (ErrorLogSpec.base ErrorLogSpec.init)])])
                (PList [config_volume
                          (GeneralLogSpec.base GeneralLogSpec.init) "cm";
                        config_volume
                          (ErrorLogSpec.base ErrorLogSpec.init) "cm"]))
           = Ok (PList cs')
        /\ find (named "mysql") cs = Some c
        /\ find (named "mysql") cs' = Some c'
        /\ forall ms,
             py_getattr c "volume_mounts" = Ok (PList ms) ->
             exists ms',
               py_getattr c' "volume_mounts" = Ok (PList ms')
               /\ filter (named "general-log-config") ms'
                  = filter (named "general-log-config") ms).
Proof.
  exact (add_to_sts_spec_other_names merge_absent
           (ErrorLogSpec.base ErrorLogSpec.init)
           (V1StatefulSet
              (PList [V1Container "mysql"
                        (PList [config_mount
                                  (GeneralLogSpec.base GeneralLogSpec.init)])])
              (PList [config_volume
                        (GeneralLogSpec.base GeneralLogSpec.init) "cm"]))
           "mysql" "cm" "general-log-config" _ _
           eq_refl eq_refl ltac:(discriminate) eq_refl eq_refl).
Defined.

(** A second descriptor with the volume name of the first replaces what the
    first left: applied after the first, to the same container, it gives the
    StatefulSet it gives when applied alone. *)
Theorem add_to_sts_spec_overwrites merge a b sts cn cma cmb sa :
  is_V1StatefulSet sts = true ->
  has_container cn sts = true ->
  volume_mount_name a = volume_mount_name b ->
  add_to_sts_spec merge a sts cn cma = Returned sa ->
  exists sb,
    add_to_sts_spec merge b sts cn cmb = Returned sb
    /\ add_to_sts_spec merge b sa cn cmb = Returned sb.
Proof.
  intros Ht Hh Heq Ha.
  destruct (add_typed_found_inv merge a sts cn cma sa Ht Hh Ha)
    as (cs & csa & vv & vl & Hc & Hv & Hpa & Hi & Hn & Hwa).
  destruct (patch_container_same_name _ _ _ _ _ Heq Hpa)
    as (csb & Hb1 & Hb2).
  destruct (add_typed_found merge b sts cn cmb cs csb vv vl
              Ht Hc Hv Hb1 Hi Hn) as (sb & Hadd & Hwb).
  destruct (with_pod_lists_obs _ _ _ _ Hwa) as (Hca & Hva & Hta).
  rewrite Ht in Hta.
  destruct (add_typed_found merge b sa cn cmb csa csb _ _
              Hta Hca Hva Hb2 eq_refl) as (s2 & Hadd2 & Hw2).
  { apply forallb_app_single; [apply forallb_filter; exact Hn | reflexivity]. }
  exists sb. split; [exact Hadd |]. rewrite Hadd2. f_equal.
  rewrite (with_pod_lists_twice _ _ _ _ _ _ _ _ Hc Hv Hwa) in Hw2.
  rewrite filter_app in Hw2. rewrite Heq, filter_idem in Hw2.
  cbn [filter] in Hw2.
  rewrite (proj2 (proj2 (proj2 (config_volume_facts a cma _)))) in Hw2.
  rewrite Heq, String.eqb_refl in Hw2. simpl negb in Hw2. cbv iota in Hw2.
  rewrite app_nil_r in Hw2. congruence.
Qed.

Lemma add_to_sts_spec_overwrites_witness :
  exists sb,
    add_to_sts_spec merge_absent
      {| volume_mount_name := "general-log-config";
         config_file_name := "general.cnf";
         config_file_mount_path := "/etc/mysql" |}
      (V1StatefulSet (PList [V1Container "mysql" (PList [])]) (PList []))
      "mysql" "cm2" = Returned sb
    /\ add_to_sts_spec merge_absent
         {| volume_mount_name := "general-log-config";
            config_file_name := "general.cnf";
            config_file_mount_path := "/etc/mysql" |}
         (V1StatefulSet
            (PList [V1Container "mysql"
                      (PList [config_mount
                                (GeneralLogSpec.base GeneralLogSpec.init)])])
            (PList [config_volume
                      (GeneralLogSpec.base GeneralLogSpec.init) "cm"]))
         "mysql" "cm2" = Returned sb.
Proof.
  exact (add_to_sts_spec_overwrites merge_absent
           (GeneralLogSpec.base GeneralLogSpec.init)
           {| volume_mount_name := "general-log-config";
              config_file_name := "general.cnf";
              config_file_mount_path := "/etc/mysql" |}
           (V1StatefulSet (PList [V1Container "mysql" (PList [])]) (PList []))
           "mysql" "cm" "cm2" _ eq_refl eq_refl eq_refl eq_refl).
Defined.

(** ** Calls that raise *)

(** The step of the volumes on a typed StatefulSet whose volumes are a list
    returns exactly when the name of every entry that is not empty can be
    read; it then leaves the containers alone and the volumes without the
    empty entries and those of the descriptor's name, followed by the
    Volume.  Otherwise it raises and the StatefulSet is as before. *)
Theorem add_volumes_all_or_nothing merge self sts cm vl :
  is_V1StatefulSet sts = true ->
  sts_volumes sts = Ok (PList vl) ->
  match _add_volumes_to_sts_spec merge self sts cm with
  | Returned s' =>
      forallb nameable vl = true
      /\ sts_volumes s'
         = Ok (PList (filter (keeps (volume_mount_name self)) vl
                      ++ [config_volume self cm]))
      /\ sts_containers s' = sts_containers sts
  | Raised e s' =>
      forallb nameable vl = false /\ s' = sts
  end.
Proof.
  intros Ht Hv. assert (Hv' := Hv). unfold sts_volumes in Hv'.
  destruct (pod_spec sts) as [pod |] eqn:Hp; [| discriminate].
  simpl in Hv'. apply getattr_inv in Hv' as (pc & pa & -> & Ev).
  rewrite (add_volumes_typed_eq merge self sts cm pc pa _ Ht Hp Ev).
  cbn [py_iter bind].
  destruct (keep_other (volume_mount_name self) vl) as [k |] eqn:Hk.
  - apply keep_other_filter in Hk as [Hn ->]. cbn [bind].
    destruct (set_pod_spec_total sts _
                (PObj pc
                   (assoc_set "volumes"
                      (PList (filter (keeps (volume_mount_name self)) vl
                              ++ [config_volume self cm])) pa)) Hp)
      as [s' Hs'].
    rewrite Hs'. cbn [all_or_nothing]. split; [exact Hn |].
    unfold sts_volumes, sts_containers.
    rewrite (pod_spec_set_pod_spec _ _ _ Hs'), Hp. simpl.
    rewrite assoc_get_set_same.
    rewrite assoc_get_set_other by discriminate. split; reflexivity.
  - cbn [bind all_or_nothing]. split; [| reflexivity].
    destruct (forallb nameable vl) eqn:Hn; [| reflexivity].
    rewrite (filter_keep_other _ _ Hn) in Hk. discriminate Hk.
Qed.

Lemma add_volumes_all_or_nothing_witness :
  forallb nameable [PNone; PDict [("name", PStr "datadir")]; PStr "x"] = false
  /\ V1StatefulSet (PList [])
       (PList [PNone; PDict [("name", PStr "datadir")]; PStr "x"])
     = V1StatefulSet (PList [])
         (PList [PNone; PDict [("name", PStr "datadir")]; PStr "x"]).
Proof.
  exact (add_volumes_all_or_nothing merge_absent
           (GeneralLogSpec.base GeneralLogSpec.init)
           (V1StatefulSet (PList [])
              (PList [PNone; PDict [("name", PStr "datadir")]; PStr "x"]))
           "cm" _ eq_refl eq_refl).
Defined.

(** [add_to_sts_spec] is not all or nothing: when the container is there
    and its mounts can be rebuilt but the volumes cannot be iterated (they
    are [None], say), the call raises after the container has received the
    mount, and the StatefulSet is left with the mount and without the
    Volume. *)
Theorem add_to_sts_spec_volumes_fault merge self sts cn cm s1 vv e :
  is_V1StatefulSet sts = true ->
  has_container cn sts = true ->
  _add_containers_to_sts_spec merge self sts cn = Returned s1 ->
  sts_volumes sts = Ok vv ->
  py_iter vv = Raise e ->
  add_to_sts_spec merge self sts cn cm = Raised e s1
  /\ sts_volumes s1 = Ok vv
  /\ exists cs1 c ms,
       sts_containers s1 = Ok (PList cs1)
       /\ find (named cn) cs1 = Some c
       /\ py_getattr c "volume_mounts" = Ok (PList ms)
       /\ filter (named (volume_mount_name self)) ms = [config_mount self].
Proof.
  intros Ht Hh Hstep Hv Hi. unfold has_container in Hh.
  destruct (sts_containers sts) as [[| | | | | cs | |] |] eqn:Hc;
    try discriminate.
  destruct (sts_lists_inv _ _ _ Hc Hv) as (pc & pa & Hp & Ec & Ev).
  rewrite (add_containers_typed_eq merge self sts cn pc pa cs Ht Hp Ec)
    in Hstep.
  destruct (patch_container self cn (containers_patch self cn) cs)
    as [[cs' |] |] eqn:Hpc; cbn [bind] in Hstep.
  - destruct (set_pod_spec sts
                (PObj pc (assoc_set "containers" (PList cs') pa)))
      as [s |] eqn:Hs; [| discriminate].
    cbn [all_or_nothing] in Hstep. injection Hstep as ->.
    assert (Ht1 : is_V1StatefulSet s1 = true).
    { rewrite (proj1 (set_pod_spec_class _ _ _ Hs)). exact Ht. }
    assert (Ev1 : assoc_get "volumes"
                    (assoc_set "containers" (PList cs') pa) = Some vv).
    { rewrite assoc_get_set_other by discriminate. exact Ev. }
    split; [| split].
    + unfold add_to_sts_spec.
      rewrite (add_containers_typed_eq merge self sts cn pc pa cs Ht Hp Ec).
      rewrite Hpc. cbn [bind]. rewrite Hs. cbn [all_or_nothing].
      rewrite (add_volumes_typed_eq merge self s1 cm pc _ vv Ht1
                 (pod_spec_set_pod_spec _ _ _ Hs) Ev1).
      rewrite Hi. reflexivity.
    + unfold sts_volumes. rewrite (pod_spec_set_pod_spec _ _ _ Hs). simpl.
      rewrite Ev1. reflexivity.
    + destruct (patch_container_post _ _ _ _ Hpc) as (c & ms & Hf & Hg & Hm).
      exists cs', c, ms. split; [| auto].
      unfold sts_containers. rewrite (pod_spec_set_pod_spec _ _ _ Hs). simpl.
      rewrite assoc_get_set_same. reflexivity.
  - pose proof (patch_container_found _ _ _ _ Hpc) as Hf. simpl in Hf.
    congruence.
  - discriminate Hstep.
Qed.

Lemma add_to_sts_spec_volumes_fault_witness :
  add_to_sts_spec merge_absent (GeneralLogSpec.base GeneralLogSpec.init)
    (V1StatefulSet (PList [V1Container "mysql" (PList [])]) PNone)
    "mysql" "cm"
  = Raised TypeError
      (V1StatefulSet
         (PList [V1Container "mysql"
                   (PList [config_mount
                             (GeneralLogSpec.base GeneralLogSpec.init)])])
         PNone).
Proof.
  exact (proj1 (add_to_sts_spec_volumes_fault merge_absent
                  (GeneralLogSpec.base GeneralLogSpec.init)
                  (V1StatefulSet (PList [V1Container "mysql" (PList [])])
                     PNone)
                  "mysql" "cm" _ PNone TypeError
                  eq_refl eq_refl eq_refl eq_refl eq_refl)).
Defined.

(** When the mounts of the first container of the given name cannot be
    iterated (a container without mounts has [None] there), the call raises
    and the StatefulSet is as before: no mount, no Volume. *)
Theorem add_to_sts_spec_mounts_fault merge self sts cn cm pre c post mv e :
  is_V1StatefulSet sts = true ->
  sts_containers sts = Ok (PList (pre ++ c :: post)) ->
  forallb (fun x => is_ok (get_object_name x) && negb (named cn x)) pre
  = true ->
  named cn c = true ->
  py_getattr c "volume_mounts" = Ok mv ->
  py_iter mv = Raise e ->
  add_to_sts_spec merge self sts cn cm = Raised e sts.
Proof.
  intros Ht Hc Hpre Hn Hg Hi. assert (Hc' := Hc).
  unfold sts_containers in Hc'.
  destruct (pod_spec sts) as [pod |] eqn:Hp; [| discriminate].
  simpl in Hc'. apply getattr_inv in Hc' as (pc & pa & -> & Ec).
  unfold add_to_sts_spec.
  rewrite (add_containers_typed_eq merge self sts cn pc pa _ Ht Hp Ec).
  rewrite (patch_container_skip _ _ _ _ Hpre), patch_container_cons.
  unfold named in Hn.
  destruct (get_object_name c) as [m |]; [| discriminate]. cbn [bind].
  rewrite Hn. unfold remount. rewrite Hg. cbn [bind]. rewrite Hi.
  reflexivity.
Qed.

Lemma add_to_sts_spec_mounts_fault_witness :
  add_to_sts_spec merge_absent (GeneralLogSpec.base GeneralLogSpec.init)
    (V1StatefulSet
       (PList [V1Container "sidecar" (PList []); V1Container "mysql" PNone])
       (PList []))
    "mysql" "cm"
  = Raised TypeError
      (V1StatefulSet
         (PList [V1Container "sidecar" (PList []);
                 V1Container "mysql" PNone])
         (PList [])).
Proof.
  exact (add_to_sts_spec_mounts_fault merge_absent
           (GeneralLogSpec.base GeneralLogSpec.init)
           (V1StatefulSet
              (PList [V1Container "sidecar" (PList []);
                      V1Container "mysql" PNone])
              (PList []))
           "mysql" "cm" [V1Container "sidecar" (PList [])]
           (V1Container "mysql" PNone) [] PNone TypeError
           eq_refl eq_refl eq_refl eq_refl eq_refl eq_refl).
Defined.

(** A StatefulSet that is neither a dictionary nor a [V1StatefulSet] is
    returned as it is, without an error: neither method has a branch for
    it. *)
Theorem add_to_sts_spec_other_type merge self sts cn cm :
  is_dict sts = false ->
  is_V1StatefulSet sts = false ->
  add_to_sts_spec merge self sts cn cm = Returned sts.
Proof.
  intros Hd Ht. unfold add_to_sts_spec, _add_containers_to_sts_spec,
    _add_volumes_to_sts_spec. rewrite Hd, Ht. cbv iota.
  rewrite Hd, Ht. reflexivity.
Qed.

Lemma add_to_sts_spec_other_type_witness :
  add_to_sts_spec merge_absent (GeneralLogSpec.base GeneralLogSpec.init)
    (PObj "V1Deployment" []) "mysql" "cm"
  = Returned (PObj "V1Deployment" []).
Proof.
  exact (add_to_sts_spec_other_type merge_absent
           (GeneralLogSpec.base GeneralLogSpec.init)
           (PObj "V1Deployment" []) "mysql" "cm" eq_refl eq_refl).
Defined.

(** On a dictionary that has no [spec.template.spec], the lookup raises (a
    [KeyError] for a missing key), the merge primitive is not reached, the
    step of the volumes is not run and the dictionary is as before. *)
Theorem add_to_sts_spec_dict_missing_path merge self d cn cm e :
  pod_spec_dict (PDict d) = Raise e ->
  add_to_sts_spec merge self (PDict d) cn cm = Raised e (PDict d).
Proof.
  intros H. unfold add_to_sts_spec, _add_containers_to_sts_spec.
  simpl is_dict. cbv iota. unfold merge_into_dict. rewrite H. reflexivity.
Qed.

Lemma add_to_sts_spec_dict_missing_path_witness :
  add_to_sts_spec merge_absent (GeneralLogSpec.base GeneralLogSpec.init)
    (PDict [("spec", PDict [("replicas", PInt 3)])]) "mysql" "cm"
  = Raised (KeyError "template")
      (PDict [("spec", PDict [("replicas", PInt 3)])]).
Proof.
  exact (add_to_sts_spec_dict_missing_path merge_absent
           (GeneralLogSpec.base GeneralLogSpec.init)
           [("spec", PDict [("replicas", PInt 3)])] "mysql" "cm"
           (KeyError "template") eq_refl).
Defined.

(** * Further properties of the log specifications *)

Lemma slow_parse_stores_longQueryTime_witness :
  SlowQueryLogSpec.longQueryTime
    {| SlowQueryLogSpec.base := SlowQueryLogSpec.base SlowQueryLogSpec.init;
       SlowQueryLogSpec._enabled := None;
       SlowQueryLogSpec.longQueryTime := PList [PStr "2.5"];
       SlowQueryLogSpec.collect := false;
       SlowQueryLogSpec.fileName := "slow_query.log";
       SlowQueryLogSpec._prefix := Some "spec.logs.slowQuery" |}
  = PList [PStr "2.5"].
Proof.
  exact (slow_parse_stores_longQueryTime SlowQueryLogSpec.init
           [("longQueryTime", PList [PStr "2.5"])] "spec.logs.slowQuery"
           _ _ eq_refl eq_refl).
Defined.

(** ** What [parse] reads and what it keeps *)

(** [parse] never changes the mount descriptor nor the name of the log
    file, whatever the fragment holds: neither can be set from the
    document. *)
Theorem parse_keeps_file_names :
  (forall self spec prefix st,
     GeneralLogSpec.parse self spec prefix = Ok st ->
     GeneralLogSpec.base st = GeneralLogSpec.base self
     /\ GeneralLogSpec.fileName st = GeneralLogSpec.fileName self)
  /\ (forall self spec prefix st,
        ErrorLogSpec.parse self spec prefix = Ok st ->
        ErrorLogSpec.base st = ErrorLogSpec.base self
        /\ ErrorLogSpec.error_log_name st = ErrorLogSpec.error_log_name self)
  /\ (forall self spec prefix st,
        SlowQueryLogSpec.parse self spec prefix = Ok st ->
        SlowQueryLogSpec.base st = SlowQueryLogSpec.base self
        /\ SlowQueryLogSpec.fileName st = SlowQueryLogSpec.fileName self).
Proof.
  split; [| split]; intros self spec prefix st.
  - unfold GeneralLogSpec.parse.
    destruct (fragment_empty spec);
      [intros H; injection H as <-; split; reflexivity |].
    destruct (has_key "enabled" (fragment_dict spec));
      [destruct (dget_bool (fragment_dict spec) "enabled" prefix);
       [| discriminate] |];
      simpl;
      (destruct (has_key "collect" (fragment_dict spec));
       [destruct (dget_bool (fragment_dict spec) "collect" prefix);
        [| discriminate] |]);
      simpl; intros H; injection H as <-; split; reflexivity.
  - unfold ErrorLogSpec.parse.
    destruct (fragment_empty spec);
      [intros H; injection H as <-; split; reflexivity |].
    destruct (has_key "verbosity" (fragment_dict spec));
      [destruct (dget_int (fragment_dict spec) "verbosity" prefix);
       [| discriminate] |];
      simpl;
      (destruct (has_key "collect" (fragment_dict spec));
       [destruct (dget_bool (fragment_dict spec) "collect" prefix);
        [| discriminate] |]);
      simpl; intros H; injection H as <-; split; reflexivity.
  - unfold SlowQueryLogSpec.parse.
    destruct (fragment_empty spec);
      [intros H; injection H as <-; split; reflexivity |].
    destruct (has_key "enabled" (fragment_dict spec));
      [destruct (dget_bool (fragment_dict spec) "enabled" prefix);
       [| discriminate] |];
      simpl;
      (destruct (has_key "longQueryTime" (fragment_dict spec));
       [destruct (assoc_get "longQueryTime" (fragment_dict spec));
        [| discriminate] |]);
      simpl;
      (destruct (has_key "collect" (fragment_dict spec));
       [destruct (dget_bool (fragment_dict spec) "collect" prefix);
        [| discriminate] |]);
      simpl; intros H; injection H as <-; split; reflexivity.
Qed.

Lemma parse_keeps_file_names_witness :
  GeneralLogSpec.base
    {| GeneralLogSpec.base := GeneralLogSpec.base GeneralLogSpec.init;
       GeneralLogSpec._enabled := Some true;
       GeneralLogSpec.collect := false;
       GeneralLogSpec.fileName := "general_query.log";
       GeneralLogSpec._prefix := Some "spec.logs.general" |}
  = GeneralLogSpec.base GeneralLogSpec.init
  /\ GeneralLogSpec.fileName
       {| GeneralLogSpec.base := GeneralLogSpec.base GeneralLogSpec.init;
          GeneralLogSpec._enabled := Some true;
          GeneralLogSpec.collect := false;
          GeneralLogSpec.fileName := "general_query.log";
          GeneralLogSpec._prefix := Some "spec.logs.general" |}
     = GeneralLogSpec.fileName GeneralLogSpec.init.
Proof.
  exact (proj1 parse_keeps_file_names GeneralLogSpec.init
           (Some [("enabled", PBool true); ("fileName", PStr "other.log")])
           "spec.logs.general" _ eq_refl).
Defined.

(** [parse] reads the keys of its own kind and no other: two fragments that
    are not empty and agree on those keys give the same instance, or both
    raise the same error. *)
Theorem parse_ignores_other_keys :
  (forall self d1 d2 prefix,
     fragment_empty (Some d1) = false ->
     fragment_empty (Some d2) = false ->
     assoc_get "enabled" d1 = assoc_get "enabled" d2 ->
     assoc_get "collect" d1 = assoc_get "collect" d2 ->
     GeneralLogSpec.parse self (Some d1) prefix
     = GeneralLogSpec.parse self (Some d2) prefix)
  /\ (forall self d1 d2 prefix,
        fragment_empty (Some d1) = false ->
        fragment_empty (Some d2) = false ->
        assoc_get "verbosity" d1 = assoc_get "verbosity" d2 ->
        assoc_get "collect" d1 = assoc_get "collect" d2 ->
        ErrorLogSpec.parse self (Some d1) prefix
        = ErrorLogSpec.parse self (Some d2) prefix)
  /\ (forall self d1 d2 prefix,
        fragment_empty (Some d1) = false ->
        fragment_empty (Some d2) = false ->
        assoc_get "enabled" d1 = assoc_get "enabled" d2 ->
        assoc_get "longQueryTime" d1 = assoc_get "longQueryTime" d2 ->
        assoc_get "collect" d1 = assoc_get "collect" d2 ->
        SlowQueryLogSpec.parse self (Some d1) prefix
        = SlowQueryLogSpec.parse self (Some d2) prefix).
Proof.
  split; [| split].
  - intros self d1 d2 prefix H1 H2 He Hc.
    unfold GeneralLogSpec.parse, has_key, dget_bool.
    rewrite H1, H2. cbn [fragment_dict]. rewrite He, Hc. reflexivity.
  - intros self d1 d2 prefix H1 H2 Hv Hc.
    unfold ErrorLogSpec.parse, has_key, dget_bool, dget_int.
    rewrite H1, H2. cbn [fragment_dict]. rewrite Hv, Hc. reflexivity.
  - intros self d1 d2 prefix H1 H2 He Hl Hc.
    unfold SlowQueryLogSpec.parse, has_key, dget_bool, py_getitem.
    rewrite H1, H2. cbn [fragment_dict]. rewrite He, Hl, Hc. reflexivity.
Qed.

Lemma parse_ignores_other_keys_witness :
  SlowQueryLogSpec.parse SlowQueryLogSpec.init
    (Some [("longQueryTime", PInt 2); ("verbosity", PInt 9)]) "p"
  = SlowQueryLogSpec.parse SlowQueryLogSpec.init
      (Some [("fileName", PStr "x.log"); ("longQueryTime", PInt 2)]) "p".
Proof.
  exact (proj2 (proj2 parse_ignores_other_keys) SlowQueryLogSpec.init
           [("longQueryTime", PInt 2); ("verbosity", PInt 9)]
           [("fileName", PStr "x.log"); ("longQueryTime", PInt 2)] "p"
           eq_refl eq_refl eq_refl eq_refl eq_refl).
Defined.

(** ** Validation after [parse] *)

Lemma general_parse_stores_prefix self spec prefix st :
  fragment_empty spec = false ->
  GeneralLogSpec.parse self spec prefix = Ok st ->
  GeneralLogSpec._prefix st = Some prefix.
Proof.
  intros Hne. unfold GeneralLogSpec.parse. rewrite Hne.
  destruct (has_key "enabled" (fragment_dict spec));
    [destruct (dget_bool (fragment_dict spec) "enabled" prefix);
     [| discriminate] |];
    simpl;
    (destruct (has_key "collect" (fragment_dict spec));
     [destruct (dget_bool (fragment_dict spec) "collect" prefix);
      [| discriminate] |]);
    simpl; intros H; injection H as <-; reflexivity.
Qed.

Lemma error_parse_stores_prefix self spec prefix st :
  fragment_empty spec = false ->
  ErrorLogSpec.parse self spec prefix = Ok st ->
  ErrorLogSpec._prefix st = Some prefix.
Proof.
  intros Hne. unfold ErrorLogSpec.parse. rewrite Hne.
  destruct (has_key "verbosity" (fragment_dict spec));
    [destruct (dget_int (fragment_dict spec) "verbosity" prefix);
     [| discriminate] |];
    simpl;
    (destruct (has_key "collect" (fragment_dict spec));
     [destruct (dget_bool (fragment_dict spec) "collect" prefix);
      [| discriminate] |]);
    simpl; intros H; injection H as <-; reflexivity.
Qed.

(** After [parse] of a fragment that is not empty, the error [validate]
    raises names the field under the prefix [parse] was given: for the
    general log [collect] without [enabled], for the error log a verbosity
    out of range. *)
Theorem validation_errors_carry_prefix :
  (forall self spec prefix st,
     fragment_empty spec = false ->
     GeneralLogSpec.parse self spec prefix = Ok st ->
     GeneralLogSpec.collect st = true ->
     GeneralLogSpec.enabled st <> Some true ->
     GeneralLogSpec.validate st
     = Raise (ApiSpecError
                (prefix ^^ ".collect is enabled while " ^^ prefix
                 ^^ ".enabled is not")))
  /\ (forall self spec prefix st,
        fragment_empty spec = false ->
        ErrorLogSpec.parse self spec prefix = Ok st ->
        ErrorLogSpec.verbosity st < 1 \/ 3 < ErrorLogSpec.verbosity st ->
        ErrorLogSpec.validate st
        = Raise (ApiSpecError
                   (prefix ^^ ".verbosity must be between 1 and 3"))).
Proof.
  split.
  - intros self spec prefix st Hne Hp Hc He.
    unfold GeneralLogSpec.validate.
    rewrite (general_parse_stores_prefix _ _ _ _ Hne Hp), Hc.
    destruct (GeneralLogSpec.enabled st) as [[|] |]; try reflexivity.
    contradiction.
  - intros self spec prefix st Hne Hp Hv.
    unfold ErrorLogSpec.validate.
    rewrite (error_parse_stores_prefix _ _ _ _ Hne Hp).
    destruct (Z.ltb_spec (ErrorLogSpec.verbosity st) 1);
      destruct (Z.gtb_spec (ErrorLogSpec.verbosity st) 3);
      simpl; try reflexivity; lia.
Qed.

Lemma validation_errors_carry_prefix_witness :
  exists st,
    ErrorLogSpec.parse ErrorLogSpec.init
      (Some [("verbosity", PInt 7)]) "spec.logs.error" = Ok st
    /\ ErrorLogSpec.validate st
       = Raise (ApiSpecError
                  ("spec.logs.error" ^^ ".verbosity must be between 1 and 3")).
Proof.
  eexists. split; [reflexivity |].
  refine (proj2 validation_errors_carry_prefix ErrorLogSpec.init
            (Some [("verbosity", PInt 7)]) "spec.logs.error" _
            eq_refl eq_refl _).
  right. reflexivity.
Defined.

(** A fragment for the general log that sets [collect] to true and has no
    key [enabled] is rejected on a fresh instance: [enabled] stays unset,
    and unset counts as not enabled. *)
Theorem general_collect_needs_enabled d prefix st :
  fragment_empty (Some d) = false ->
  assoc_get "enabled" d = None ->
  assoc_get "collect" d = Some (PBool true) ->
  GeneralLogSpec.parse GeneralLogSpec.init (Some d) prefix = Ok st ->
  GeneralLogSpec.validate st
  = Raise (ApiSpecError
             (prefix ^^ ".collect is enabled while " ^^ prefix
              ^^ ".enabled is not")).
Proof.
  intros Hne He Hc. unfold GeneralLogSpec.parse, has_key, dget_bool.
  rewrite Hne. cbn [fragment_dict]. rewrite He, Hc. simpl.
  intros H. injection H as <-. reflexivity.
Qed.

Lemma general_collect_needs_enabled_witness :
  GeneralLogSpec.validate
    {| GeneralLogSpec.base := GeneralLogSpec.base GeneralLogSpec.init;
       GeneralLogSpec._enabled := None;
       GeneralLogSpec.collect := true;
       GeneralLogSpec.fileName := "general_query.log";
       GeneralLogSpec._prefix := Some "spec.logs.general" |}
  = Raise (ApiSpecError
             ("spec.logs.general" ^^ ".collect is enabled while "
              ^^ "spec.logs.general" ^^ ".enabled is not")).
Proof.
  exact (general_collect_needs_enabled [("collect", PBool true)]
           "spec.logs.general" _ eq_refl eq_refl eq_refl eq_refl).
Defined.

(** ** Rendering *)

(** An error log that passed [validate] renders one of three verbosity
    lines, followed, when [collect] is set, by the two lines that route the
    log to the JSON sink. *)
Theorem error_cm_data_after_validate st :
  ErrorLogSpec.validate st = Ok tt ->
  exists d,
    In d ["1"; "2"; "3"]
    /\ ErrorLogSpec.get_cm_data st
       = [(config_file_name (ErrorLogSpec.base st),
           if ErrorLogSpec.collect st
           then ("# Generated by MySQL Operator for Kubernetes" ^^ nl
                 ^^ "[mysqld]" ^^ nl ^^ "log_error_verbosity=" ^^ d)
                ^^ nl ^^ "log_error='" ^^ ErrorLogSpec.error_log_name st
                ^^ "'" ^^ nl ^^ "log_error_services='log_sink_json'"
           else "# Generated by MySQL Operator for Kubernetes" ^^ nl
                ^^ "[mysqld]" ^^ nl ^^ "log_error_verbosity=" ^^ d)].
Proof.
  unfold ErrorLogSpec.validate. intros H.
  destruct (Z.ltb_spec (ErrorLogSpec.verbosity st) 1) as [H1 | H1];
    destruct (Z.gtb_spec (ErrorLogSpec.verbosity st) 3) as [H3 | H3];
    simpl in H; try discriminate.
  assert (Hv : ErrorLogSpec.verbosity st = 1
               \/ ErrorLogSpec.verbosity st = 2
               \/ ErrorLogSpec.verbosity st = 3) by lia.
  unfold ErrorLogSpec.get_cm_data.
  destruct Hv as [-> | [-> | ->]];
    [exists "1" | exists "2" | exists "3"];
    (split; [simpl; auto |]);
    destruct (ErrorLogSpec.collect st); reflexivity.
Qed.

Lemma error_cm_data_after_validate_witness :
  exists d,
    In d ["1"; "2"; "3"]
    /\ ErrorLogSpec.get_cm_data (ErrorLogSpec.set_verbosity 2 ErrorLogSpec.init)
       = [("error-log.cnf",
           "# Generated by MySQL Operator for Kubernetes" ^^ nl
           ^^ "[mysqld]" ^^ nl ^^ "log_error_verbosity=" ^^ d)].
Proof.
  exact (error_cm_data_after_validate
           (ErrorLogSpec.set_verbosity 2 ErrorLogSpec.init) eq_refl).
Defined.

(** A [longQueryTime] that is falsy is rendered as if it were unset: the
    body has no [long_query_time] line.  That includes the number 0, which
    [validate] accepts as it accepts an unset field, so a threshold of zero
    cannot be configured. *)
Theorem slow_falsy_longQueryTime py_repr st :
  py_truthy (SlowQueryLogSpec.longQueryTime st) = false ->
  SlowQueryLogSpec.get_cm_data py_repr st
  = SlowQueryLogSpec.get_cm_data py_repr
      (SlowQueryLogSpec.set_longQueryTime PNone st)
  /\ SlowQueryLogSpec.validate (SlowQueryLogSpec.set_longQueryTime (PInt 0) st)
     = SlowQueryLogSpec.validate (SlowQueryLogSpec.set_longQueryTime PNone st)
  /\ SlowQueryLogSpec.get_cm_data py_repr
       (SlowQueryLogSpec.set_longQueryTime (PInt 0) st)
     = SlowQueryLogSpec.get_cm_data py_repr
         (SlowQueryLogSpec.set_longQueryTime PNone st).
Proof.
  intros Hf. split; [| split].
  - unfold SlowQueryLogSpec.get_cm_data. rewrite Hf.
    unfold SlowQueryLogSpec.enabled. simpl.
    destruct (opt_bool_truthy (SlowQueryLogSpec._enabled st)); reflexivity.
  - reflexivity.
  - unfold SlowQueryLogSpec.get_cm_data, SlowQueryLogSpec.enabled. simpl.
    destruct (opt_bool_truthy (SlowQueryLogSpec._enabled st)); reflexivity.
Qed.

Lemma slow_falsy_longQueryTime_witness :
  SlowQueryLogSpec.get_cm_data (fun _ => "")
    {| SlowQueryLogSpec.base := SlowQueryLogSpec.base SlowQueryLogSpec.init;
       SlowQueryLogSpec._enabled := Some true;
       SlowQueryLogSpec.longQueryTime := PInt 0;
       SlowQueryLogSpec.collect := false;
       SlowQueryLogSpec.fileName := "slow_query.log";
       SlowQueryLogSpec._prefix := None |}
  = [("slow-query-log.cnf",
      "# Generated by MySQL Operator for Kubernetes" ^^ nl
      ^^ "[mysqld]" ^^ nl ^^ "slow_query_log=1" ^^ nl
      ^^ "slow_query_log_file='slow_query.log'" ^^ nl
      ^^ "log_slow_admin_statements=1")].
Proof.
  exact (proj1 (slow_falsy_longQueryTime (fun _ => "")
                  {| SlowQueryLogSpec.base :=
                       SlowQueryLogSpec.base SlowQueryLogSpec.init;
                     SlowQueryLogSpec._enabled := Some true;
                     SlowQueryLogSpec.longQueryTime := PInt 0;
                     SlowQueryLogSpec.collect := false;
                     SlowQueryLogSpec.fileName := "slow_query.log";
                     SlowQueryLogSpec._prefix := None |} eq_refl)).
Defined.

(** * Several descriptors on one container *)

Lemma remount_again a b c ca :
  remount a c = Ok ca -> exists cab, remount b ca = Ok cab.
Proof.
  intros Ha.
  apply remount_inv in Ha as (cls & attrs & mv & ml & -> & Ea & Ei & Hn & ->).
  eexists. eapply remount_intro;
    [apply assoc_get_set_same | reflexivity
    | apply forallb_app_single;
      [apply forallb_filter; exact Hn | reflexivity]].
Qed.

Lemma patch_container_again a b cn cs csa :
  patch_container a cn (containers_patch a cn) cs = Ok (Some csa) ->
  exists cab,
    patch_container b cn (containers_patch b cn) csa = Ok (Some cab).
Proof.
  revert csa. induction cs as [| c rest IH]; intros csa H.
  - discriminate H.
  - rewrite patch_container_cons in H.
    destruct (get_object_name c) as [m |] eqn:En; [| discriminate].
    simpl in H. destruct (py_eq_str m cn) eqn:Em.
    + destruct (remount a c) as [ca |] eqn:Er; [| discriminate].
      simpl in H. injection H as <-.
      destruct (remount_again a b _ _ Er) as (cab & Hb).
      exists (cab :: rest).
      rewrite patch_container_cons, (remount_name _ _ _ Er), En. simpl.
      rewrite Em, Hb. reflexivity.
    + destruct (patch_container a cn (containers_patch a cn) rest)
        as [[r' |] |]; try discriminate.
      simpl in H. injection H as <-.
      destruct (IH _ eq_refl) as (rb & Hb).
      exists (c :: rb). rewrite patch_container_cons, En. simpl.
      rewrite Em, Hb. reflexivity.
Qed.

(** The mounts of the first container of the given name, before and after
    the loop. *)
Lemma patch_container_mounts self cn cs cs' :
  patch_container self cn (containers_patch self cn) cs = Ok (Some cs') ->
  exists c c' mv ml,
    find (named cn) cs = Some c
    /\ find (named cn) cs' = Some c'
    /\ py_getattr c "volume_mounts" = Ok mv
    /\ py_iter mv = Ok ml
    /\ py_getattr c' "volume_mounts"
       = Ok (PList (filter (keeps (volume_mount_name self)) ml
                    ++ [config_mount self])).
Proof.
  intros H.
  destruct (patch_container_shape _ _ _ _ H)
    as (pre & c & c' & post & -> & -> & Hpre & Hc & Hr).
  exists c, c'.
  assert (Hc' : named cn c' = true)
    by (rewrite (remount_named _ _ _ cn Hr); exact Hc).
  apply remount_inv in Hr as (cls & attrs & mv & ml & -> & Ea & Ei & _ & ->).
  exists mv, ml.
  split; [apply find_skip; assumption |].
  split; [apply find_skip; assumption |].
  split; [simpl; rewrite Ea; reflexivity |].
  split; [exact Ei |].
  simpl. rewrite assoc_get_set_same. reflexivity.
Qed.

(** The entries of the name [n] in a list that was filtered for the name
    [m] and extended by an entry that is not named [n]. *)
Lemma filter_named_kept n m l x :
  n <> m ->
  named n x = false ->
  filter (named n) (filter (keeps m) l ++ [x]) = filter (named n) l.
Proof.
  intros Hne Hx. rewrite filter_app, (filter_named_other _ _ _ Hne).
  cbn [filter]. rewrite Hx. apply app_nil_r.
Qed.

(** Once a call has returned on a typed StatefulSet that has the container,
    a call for any descriptor and the same container returns too: what a
    call leaves behind never makes the next one raise. *)
Lemma add_typed_again merge a b sts cn cma cmb sa :
  is_V1StatefulSet sts = true ->
  has_container cn sts = true ->
  add_to_sts_spec merge a sts cn cma = Returned sa ->
  is_V1StatefulSet sa = true
  /\ has_container cn sa = true
  /\ exists sab, add_to_sts_spec merge b sa cn cmb = Returned sab.
Proof.
  intros Ht Hh Ha.
  destruct (add_typed_found_inv merge a sts cn cma sa Ht Hh Ha)
    as (cs & csa & vv & vl & Hc & Hv & Hpa & Hi & Hn & Hwa).
  destruct (with_pod_lists_obs _ _ _ _ Hwa) as (Hca & Hva & Hta).
  rewrite Ht in Hta.
  assert (Hha : has_container cn sa = true).
  { unfold has_container in *. rewrite Hc in Hh. rewrite Hca.
    rewrite (patch_container_names _ _ _ _ cn Hpa). exact Hh. }
  destruct (patch_container_again a b _ _ _ Hpa) as (cab & Hb).
  destruct (add_typed_found merge b sa cn cmb csa cab _ _
              Hta Hca Hva Hb eq_refl) as (sab & Hadd & _).
  { apply forallb_app_single; [apply forallb_filter; exact Hn | reflexivity]. }
  repeat split; try assumption. exists sab. exact Hadd.
Qed.

(** The volumes and the mounts of the changed container, by name, after a
    call on a StatefulSet whose lists are lists. *)
Lemma add_typed_by_name merge self sts cn cm vs c ms s' :
  is_V1StatefulSet sts = true ->
  has_container cn sts = true ->
  sts_volumes sts = Ok (PList vs) ->
  (exists cs, sts_containers sts = Ok (PList cs)
              /\ find (named cn) cs = Some c) ->
  py_getattr c "volume_mounts" = Ok (PList ms) ->
  add_to_sts_spec merge self sts cn cm = Returned s' ->
  exists vs' c' ms',
    sts_volumes s' = Ok (PList vs')
    /\ (exists cs', sts_containers s' = Ok (PList cs')
                    /\ find (named cn) cs' = Some c')
    /\ py_getattr c' "volume_mounts" = Ok (PList ms')
    /\ filter (named (volume_mount_name self)) vs' = [config_volume self cm]
    /\ filter (named (volume_mount_name self)) ms' = [config_mount self]
    /\ forall n, n <> volume_mount_name self ->
                 filter (named n) vs' = filter (named n) vs
                 /\ filter (named n) ms' = filter (named n) ms.
Proof.
  intros Ht Hh Hvs (cs0 & Hcs0 & Hfind) Hms Hadd.
  destruct (add_typed_found_inv merge self sts cn cm s' Ht Hh Hadd)
    as (cs & cs' & vv & vl & Hc & Hv & Hpc & Hi & Hn & Hw).
  rewrite Hvs in Hv. injection Hv as <-. simpl in Hi. injection Hi as <-.
  rewrite Hcs0 in Hc. injection Hc as <-.
  destruct (with_pod_lists_obs _ _ _ _ Hw) as (Hc' & Hv' & _).
  destruct (patch_container_mounts _ _ _ _ Hpc)
    as (c0 & c' & mv & ml & Hf0 & Hf' & Hg0 & Hi0 & Hg').
  rewrite Hfind in Hf0. injection Hf0 as <-.
  rewrite Hms in Hg0. injection Hg0 as <-. simpl in Hi0.
  injection Hi0 as <-.
  eexists. exists c'. eexists.
  split; [exact Hv' |]. split; [exists cs'; auto |]. split; [exact Hg' |].
  split; [apply filter_named_appended; simpl; apply String.eqb_refl |].
  split; [apply filter_named_appended; simpl; apply String.eqb_refl |].
  intros n Hne.
  assert (E : String.eqb (volume_mount_name self) n = false).
  { apply String.eqb_neq. intros E. apply Hne. symmetry. exact E. }
  split; apply filter_named_kept; assumption.
Qed.

(** Three descriptors with distinct volume names, as the three kinds of log
    have, applied one after the other to the same container of a typed
    StatefulSet whose volumes and mounts are lists: if the first call
    returns, the other two return, and the final StatefulSet holds for each
    of the three names one Volume, that of its descriptor, and in the
    container one mount, that of its descriptor. *)
Theorem add_to_sts_spec_three merge a b c sts cn cma cmb cmc vs k ms s1 :
  is_V1StatefulSet sts = true ->
  has_container cn sts = true ->
  volume_mount_name a <> volume_mount_name b ->
  volume_mount_name a <> volume_mount_name c ->
  volume_mount_name b <> volume_mount_name c ->
  sts_volumes sts = Ok (PList vs) ->
  (exists cs, sts_containers sts = Ok (PList cs)
              /\ find (named cn) cs = Some k) ->
  py_getattr k "volume_mounts" = Ok (PList ms) ->
  add_to_sts_spec merge a sts cn cma = Returned s1 ->
  exists s2 s3 vs3 k3 ms3,
    add_to_sts_spec merge b s1 cn cmb = Returned s2
    /\ add_to_sts_spec merge c s2 cn cmc = Returned s3
    /\ sts_volumes s3 = Ok (PList vs3)
    /\ (exists cs3, sts_containers s3 = Ok (PList cs3)
                    /\ find (named cn) cs3 = Some k3)
    /\ py_getattr k3 "volume_mounts" = Ok (PList ms3)
    /\ filter (named (volume_mount_name a)) vs3 = [config_volume a cma]
    /\ filter (named (volume_mount_name b)) vs3 = [config_volume b cmb]
    /\ filter (named (volume_mount_name c)) vs3 = [config_volume c cmc]
    /\ filter (named (volume_mount_name a)) ms3 = [config_mount a]
    /\ filter (named (volume_mount_name b)) ms3 = [config_mount b]
    /\ filter (named (volume_mount_name c)) ms3 = [config_mount c].
Proof.
  intros Ht Hh Hab Hac Hbc Hvs Hk Hms H1.
  destruct (add_typed_again merge a b sts cn cma cmb s1 Ht Hh H1)
    as (Ht1 & Hh1 & s2 & H2).
  destruct (add_typed_again merge b c s1 cn cmb cmc s2 Ht1 Hh1 H2)
    as (Ht2 & Hh2 & s3 & H3).
  destruct (add_typed_by_name merge a sts cn cma vs k ms s1
              Ht Hh Hvs Hk Hms H1)
    as (vs1 & k1 & ms1 & Hv1 & Hk1 & Hm1 & Va1 & Ma1 & _).
  destruct (add_typed_by_name merge b s1 cn cmb vs1 k1 ms1 s2
              Ht1 Hh1 Hv1 Hk1 Hm1 H2)
    as (vs2 & k2 & ms2 & Hv2 & Hk2 & Hm2 & Vb2 & Mb2 & O2).
  destruct (add_typed_by_name merge c s2 cn cmc vs2 k2 ms2 s3
              Ht2 Hh2 Hv2 Hk2 Hm2 H3)
    as (vs3 & k3 & ms3 & Hv3 & Hk3 & Hm3 & Vc3 & Mc3 & O3).
  destruct (O2 _ Hab) as [Va2 Ma2].
  destruct (O3 _ Hac) as [Va3 Ma3].
  destruct (O3 _ Hbc) as [Vb3 Mb3].
  exists s2, s3, vs3, k3, ms3.
  repeat split; try assumption; congruence.
Qed.

Lemma add_to_sts_spec_three_witness :
  exists s2 s3 vs3 k3 ms3,
    add_to_sts_spec merge_absent (ErrorLogSpec.base ErrorLogSpec.init)
      (V1StatefulSet
         (PList [V1Container "mysql"
                   (PList [config_mount
                             (GeneralLogSpec.base GeneralLogSpec.init)])])
         (PList [config_volume
                   (GeneralLogSpec.base GeneralLogSpec.init) "cm"]))
      "mysql" "cm" = Returned s2
    /\ add_to_sts_spec merge_absent
         (SlowQueryLogSpec.base SlowQueryLogSpec.init) s2 "mysql" "cm"
       = Returned s3
    /\ sts_volumes s3 = Ok (PList vs3)
    /\ (exists cs3, sts_containers s3 = Ok (PList cs3)
                    /\ find (named "mysql") cs3 = Some k3)
    /\ py_getattr k3 "volume_mounts" = Ok (PList ms3)
    /\ filter (named "general-log-config") vs3
       = [config_volume (GeneralLogSpec.base GeneralLogSpec.init) "cm"]
    /\ filter (named "error-log-config") vs3
       = [config_volume (ErrorLogSpec.base ErrorLogSpec.init) "cm"]
    /\ filter (named "slow-query-log-config") vs3
       = [config_volume (SlowQueryLogSpec.base SlowQueryLogSpec.init) "cm"]
    /\ filter (named "general-log-config") ms3
       = [config_mount (GeneralLogSpec.base GeneralLogSpec.init)]
    /\ filter (named "error-log-config") ms3
       = [config_mount (ErrorLogSpec.base ErrorLogSpec.init)]
    /\ filter (named "slow-query-log-config") ms3
       = [config_mount (SlowQueryLogSpec.base SlowQueryLogSpec.init)].
Proof.
  refine (add_to_sts_spec_three merge_absent
            (GeneralLogSpec.base GeneralLogSpec.init)
            (ErrorLogSpec.base ErrorLogSpec.init)
            (SlowQueryLogSpec.base SlowQueryLogSpec.init)
            (V1StatefulSet (PList [V1Container "mysql" (PList [])])
               (PList []))
            "mysql" "cm" "cm" "cm" [] (V1Container "mysql" (PList [])) [] _
            eq_refl eq_refl _ _ _ eq_refl _ eq_refl eq_refl);
    try discriminate.
  eexists. split; reflexivity.
Defined.
